(** * Black-Litterman engine

    A shallow embedding of [black_litterman/domain/engine.py]: the closed-form
    weight solver [BLEngine._get_weights], the per-view confidence calibration
    and the engine facade, over a model of the pandas / numpy operations the
    engine calls.

    Numbers are kept abstract (class [Num]): the engine only adds, subtracts,
    multiplies and divides them, and the statements below hold for every
    carrier, IEEE binary64 included (instance [float_Num]).  Labels of pandas
    axes are abstract too (class [Label]). *)

From Stdlib Require Import PrimFloat String List Bool Arith Lia.
Import ListNotations.
Open Scope string_scope.
Open Scope list_scope.
Set Implicit Arguments.
Set Warnings "-inexact-float".

(** ** Python exceptions, results and printed output *)

Module Py.

Inductive exn : Type :=
| ValueError          (* pandas: "matrices are not aligned", bad shapes *)
| UnboundLocalError   (* a local name read before it was assigned *)
| LinAlgError         (* numpy.linalg: "Singular matrix" *)
| IndexError
| OtherError (msg : string).

Inductive result (A : Type) : Type :=
| Ok (a : A)
| Raise (e : exn).
Arguments Ok {A} a.
Arguments Raise {A} e.

Definition bindR {A B} (c : result A) (k : A -> result B) : result B :=
  match c with
  | Ok a => k a
  | Raise e => Raise e
  end.

(** A computation of the engine: the lines it printed, and how it ended. *)
Definition M (A : Type) : Type := (list string * result A)%type.

Definition ret {A} (a : A) : M A := ([], Ok a).
Definition raise {A} (e : exn) : M A := ([], Raise e).
Definition print (line : string) : M unit := ([line], Ok tt).
Definition lift {A} (r : result A) : M A := ([], r).

Definition bind {A B} (c : M A) (k : A -> M B) : M B :=
  match c with
  | (out, Ok a) => let (out', r) := k a in (out ++ out', r)
  | (out, Raise e) => (out, Raise e)
  end.

Definition is_raise {A} (c : M A) : bool :=
  match snd c with Raise _ => true | Ok _ => false end.

End Py.
Import Py.

Notation "x <-- c ;; k" := (bindR c (fun x => k))
  (at level 61, c at next level, right associativity).
Notation "x <- c ;; k" := (bind c (fun x => k))
  (at level 61, c at next level, right associativity).

(** ** Carriers *)

(** The arithmetic the engine uses on matrix entries.  [nan] is what pandas
    fills in for a label that one operand of an aligned operation lacks. *)
Class Num (R : Type) : Type := {
  zero : R;
  nan : R;
  nadd : R -> R -> R;
  nsub : R -> R -> R;
  nmul : R -> R -> R;
  ndiv : R -> R -> R;
  nsquare : R -> R;       (* x ** 2 *)
  initial_guess : R       (* the literal 0.1 handed to the minimizer *)
}.

(** Axis labels: asset identifiers and view identifiers. *)
Class Label (L : Type) : Type := {
  label_eqb : L -> L -> bool;
  label_leb : L -> L -> bool;
  label_eqb_eq : forall a b, label_eqb a b = true <-> a = b
}.

(** ** numpy: dense vectors and matrices, by position *)

Section Numpy.
Context {R : Type} `{Num R}.

Definition vector := list R.
Definition matrix := list (list R).

Fixpoint map2 {A B C} (f : A -> B -> C) (u : list A) (v : list B) : list C :=
  match u, v with
  | a :: u', b :: v' => f a b :: map2 f u' v'
  | _, _ => []
  end.

(** Inner product; the empty sum is [zero]. *)
Definition inner (u v : vector) : R :=
  fold_left nadd (map2 nmul u v) zero.

Definition column (j : nat) (m : matrix) : vector :=
  map (fun row => nth j row nan) m.

(** [transpose n m]: the transpose of a matrix with [n] columns. *)
Definition transpose (n : nat) (m : matrix) : matrix :=
  map (fun j => column j m) (seq 0 n).

(** [np.dot a b] for 2-D [a] and a 2-D [b] with [n] columns. *)
Definition mat_mul (a b : matrix) (n : nat) : matrix :=
  map (fun row => map (fun j => inner row (column j b)) (seq 0 n)) a.

(** [np.dot a v] for 2-D [a] and 1-D [v]. *)
Definition mat_vec (a : matrix) (v : vector) : vector :=
  map (fun row => inner row v) a.

Definition mat_map2 (f : R -> R -> R) (a b : matrix) : matrix :=
  map2 (map2 f) a b.

(** [np.diag v] for 1-D [v]. *)
Definition np_diag (v : vector) : matrix :=
  map (fun i => map (fun j => if Nat.eqb i j then nth i v nan else zero)
                    (seq 0 (length v)))
      (seq 0 (length v)).

(** [rows x cols] shape test of a list of rows. *)
Definition has_shape (rows cols : nat) (m : matrix) : bool :=
  Nat.eqb (length m) rows && forallb (fun row => Nat.eqb (length row) cols) m.

End Numpy.

(** ** pandas: labelled vectors and matrices *)

Section Pandas.
Context {L : Type} `{Label L} {R : Type} `{Num R}.

(** *** Index *)

Fixpoint index_equals (a b : list L) : bool :=
  match a, b with
  | [], [] => true
  | x :: a', y :: b' => label_eqb x y && index_equals a' b'
  | _, _ => false
  end.

Definition index_mem (l : L) (a : list L) : bool :=
  existsb (label_eqb l) a.

Fixpoint is_unique (a : list L) : bool :=
  match a with
  | [] => true
  | x :: a' => negb (index_mem x a') && is_unique a'
  end.

Fixpoint dedup (a : list L) : list L :=
  match a with
  | [] => []
  | x :: a' => x :: filter (fun y => negb (label_eqb x y)) (dedup a')
  end.

Fixpoint insert_sorted (x : L) (a : list L) : list L :=
  match a with
  | [] => [x]
  | y :: a' => if label_leb x y then x :: a else y :: insert_sorted x a'
  end.

Definition sort_values (a : list L) : list L :=
  fold_right insert_sorted [] a.

(** [Index.union] with the default [sort=None]: an operand is returned as
    it is when the other one is empty or equal to it; otherwise the union
    is sorted.  This is the union of axes whose labels are pairwise
    different, which is what the data model has; of a label that an axis
    repeats pandas keeps the repetitions, here one occurrence is kept. *)
Definition index_union (a b : list L) : list L :=
  match b with
  | [] => a
  | _ =>
    if index_equals a b then a
    else match a with
         | [] => b
         | _ => sort_values (dedup (a ++ b))
         end
  end.

Fixpoint get_loc (l : L) (a : list L) : option nat :=
  match a with
  | [] => None
  | x :: a' => if label_eqb l x then Some 0
               else option_map S (get_loc l a')
  end.

(** Positions of the labels of [target] in [source]; reindexing an axis
    that repeats a label onto a different axis is refused by pandas. *)
Definition get_indexer (source target : list L) : result (option (list (option nat))) :=
  if index_equals source target then Ok None
  else if is_unique source
       then Ok (Some (map (fun l => get_loc l source) target))
       else Raise ValueError.

Definition take {A} (dflt : A) (values : list A) (indexer : list (option nat)) : list A :=
  map (fun p => match p with
                | Some i => nth i values dflt
                | None => dflt
                end) indexer.

(** *** Series *)

Record Series : Type := {
  s_index : list L;
  s_values : list R;
  s_name : option string
}.

Definition series_rename (s : Series) (name : string) : Series :=
  {| s_index := s_index s; s_values := s_values s; s_name := Some name |}.

Definition series_reindex (s : Series) (target : list L) : result Series :=
  ix <-- get_indexer (s_index s) target ;;
  match ix with
  | None => Ok s
  | Some indexer =>
      Ok {| s_index := target;
            s_values := take nan (s_values s) indexer;
            s_name := s_name s |}
  end.

Definition name_eqb (a b : option string) : bool :=
  match a, b with
  | None, None => true
  | Some x, Some y => String.eqb x y
  | _, _ => false
  end.

Definition op_result_name (a b : option string) : option string :=
  if name_eqb a b then a else None.

(** [a + b], [a - b], [a.add(b)], [a.subtract(b)]: equal indexes are
    combined by position, different ones are first aligned on their union.
    Different indexes of which one repeats a label are outside the data
    model: pandas joins them, here the operation is refused as a
    reindexing of that axis is. *)
Definition series_arith (f : R -> R -> R) (a b : Series) : result Series :=
  if index_equals (s_index a) (s_index b) then
    Ok {| s_index := s_index a;
          s_values := map2 f (s_values a) (s_values b);
          s_name := op_result_name (s_name a) (s_name b) |}
  else
    let joined := index_union (s_index a) (s_index b) in
    a' <-- series_reindex a joined ;;
    b' <-- series_reindex b joined ;;
    Ok {| s_index := joined;
          s_values := map2 f (s_values a') (s_values b');
          s_name := op_result_name (s_name a) (s_name b) |}.

Definition series_add := series_arith nadd.
Definition series_sub := series_arith nsub.

(** [s.divide(c)] and [c * s] for a scalar [c]. *)
Definition series_divide (s : Series) (c : R) : Series :=
  {| s_index := s_index s;
     s_values := map (fun x => ndiv x c) (s_values s);
     s_name := s_name s |}.

Definition series_scale (c : R) (s : Series) : Series :=
  {| s_index := s_index s;
     s_values := map (fun x => nmul c x) (s_values s);
     s_name := s_name s |}.

(** [pd.Series(d)] for a dict [d], kept as its items in insertion order. *)
Definition series_of_dict (d : list (L * R)) : Series :=
  {| s_index := map fst d; s_values := map snd d; s_name := None |}.

(** *** DataFrame *)

Record DataFrame : Type := {
  df_index : list L;
  df_columns : list L;
  df_values : list (list R)
}.

(** [pd.DataFrame(values, index=..., columns=...)] checks the shape. *)
Definition pd_DataFrame (values : list (list R)) (index columns : list L)
  : result DataFrame :=
  if has_shape (length index) (length columns) values
  then Ok {| df_index := index; df_columns := columns; df_values := values |}
  else Raise ValueError.

Definition df_T (d : DataFrame) : DataFrame :=
  {| df_index := df_columns d;
     df_columns := df_index d;
     df_values := transpose (length (df_columns d)) (df_values d) |}.

Definition df_divide (d : DataFrame) (c : R) : DataFrame :=
  {| df_index := df_index d;
     df_columns := df_columns d;
     df_values := map (map (fun x => ndiv x c)) (df_values d) |}.

Definition df_reindex_rows (d : DataFrame) (target : list L) : result DataFrame :=
  ix <-- get_indexer (df_index d) target ;;
  match ix with
  | None => Ok d
  | Some indexer =>
      Ok {| df_index := target;
            df_columns := df_columns d;
            df_values := take (map (fun _ => nan) (df_columns d))
                              (df_values d) indexer |}
  end.

Definition df_reindex_columns (d : DataFrame) (target : list L) : result DataFrame :=
  ix <-- get_indexer (df_columns d) target ;;
  match ix with
  | None => Ok d
  | Some indexer =>
      Ok {| df_index := df_index d;
            df_columns := target;
            df_values := map (fun row => take nan row indexer) (df_values d) |}
  end.

(** [a + b] on frames: both axes are aligned on their unions.  As for
    series, axes that differ and of which one repeats a label are outside
    the data model and refused. *)
Definition df_add (a b : DataFrame) : result DataFrame :=
  if index_equals (df_index a) (df_index b)
     && index_equals (df_columns a) (df_columns b)
  then Ok {| df_index := df_index a;
             df_columns := df_columns a;
             df_values := mat_map2 nadd (df_values a) (df_values b) |}
  else
    let rows := index_union (df_index a) (df_index b) in
    let cols := index_union (df_columns a) (df_columns b) in
    a1 <-- df_reindex_rows a rows ;;
    a2 <-- df_reindex_columns a1 cols ;;
    b1 <-- df_reindex_rows b rows ;;
    b2 <-- df_reindex_columns b1 cols ;;
    Ok {| df_index := rows;
          df_columns := cols;
          df_values := mat_map2 nadd (df_values a2) (df_values b2) |}.

(** The alignment step shared by both forms of [DataFrame.dot]: the
    columns of the left operand and the index of the right one must hold
    the same labels ("matrices are not aligned" otherwise). *)
Definition dot_common (left_columns right_index : list L) : result (list L) :=
  let common := index_union left_columns right_index in
  if Nat.ltb (length left_columns) (length common)
     || Nat.ltb (length right_index) (length common)
  then Raise ValueError
  else Ok common.

(** [a.dot(b)] for a frame [b]. *)
Definition df_dot (a b : DataFrame) : result DataFrame :=
  common <-- dot_common (df_columns a) (df_index b) ;;
  left <-- df_reindex_columns a common ;;
  right <-- df_reindex_rows b common ;;
  Ok {| df_index := df_index left;
        df_columns := df_columns b;
        df_values := mat_mul (df_values left) (df_values right)
                             (length (df_columns b)) |}.

(** [a.dot(s)] for a series [s]. *)
Definition df_dot_series (a : DataFrame) (s : Series) : result Series :=
  common <-- dot_common (df_columns a) (s_index s) ;;
  left <-- df_reindex_columns a common ;;
  right <-- series_reindex s common ;;
  Ok {| s_index := df_index left;
        s_values := mat_vec (df_values left) (s_values right);
        s_name := None |}.

(** Shape invariants every pandas object satisfies. *)
Definition series_wf (s : Series) : bool :=
  Nat.eqb (length (s_values s)) (length (s_index s)).

Definition df_wf (d : DataFrame) : bool :=
  has_shape (length (df_index d)) (length (df_columns d)) (df_values d).

End Pandas.

Arguments Series L R : clear implicits.
Arguments DataFrame L R : clear implicits.

(** ** Collaborators of the engine *)

(** [black_litterman.domain.views]: what the engine reads from a [View] and
    from a [ViewCollection]. *)
Class Views (L R View ViewCollection : Type) : Type := {
  view_id : View -> L;
  view_confidence : View -> R;
  view_out_performance : View -> R;
  get_view_data_frame : View -> list L -> DataFrame L R;
  get_all_views : ViewCollection -> list View;
  get_view_matrix : ViewCollection -> list L -> DataFrame L R;
  get_view_out_performances : ViewCollection -> Series L R
}.

(** The market-data engine handed out by the data reader. *)
Record MarketDataEngine (L R : Type) : Type := {
  mde_get_market_weights : string -> M (Series L R);
  mde_get_annualised_cov_matrix : string -> string -> M (DataFrame L R);
  mde_get_implied_returns : string -> string -> R -> M (Series L R)
}.

(** [scipy.optimize.OptimizeResult], the fields that matter here: the final
    iterate and whether the optimizer reports success. *)
Record OptimizeResult (R : Type) : Type := {
  opt_x : list R;
  opt_success : bool
}.

(** Library functions and constants the engine imports. *)
Class Imports (R : Type) : Type := {
  (* numpy.linalg.inv; [None] is LinAlgError *)
  np_linalg_inv : list (list R) -> option (list (list R));
  (* scipy.optimize.minimize(fun, x0, method="BFGS") on a one-element x0 *)
  optimize_minimize : (R -> M R) -> R -> M (OptimizeResult R);
  (* black_litterman.constants.Weights *)
  Weights_MARKET : string;
  Weights_BLACK_LITTERMAN : string
}.

(** ** The engine *)

Section Engine.
Context {L : Type} `{Label L} {R : Type} `{Num R} `{Imports R}.
Context {View ViewCollection : Type} `{Views L R View ViewCollection}.

Record CalculationSettings : Type := {
  tau : R;
  risk_aversion : R;
  start_date : string;
  calculation_date : string;
  asset_universe : list (L * string)
}.

Record BLEngine : Type := {
  _market_data_engine : MarketDataEngine L R;
  _calc_settings : CalculationSettings
}.

(** [list(self._calc_settings.asset_universe)]: the keys of the dict. *)
Definition universe (self : BLEngine) : list L :=
  map fst (asset_universe (_calc_settings self)).

Definition get_market_weights (self : BLEngine) (end_date : option string)
  : M (Series L R) :=
  let end_date :=
    match end_date with
    | None => calculation_date (_calc_settings self)
    | Some d => d
    end in
  weights <- mde_get_market_weights (_market_data_engine self) end_date ;;
  ret (series_rename weights Weights_MARKET).

Definition get_market_returns (self : BLEngine) (start_date end_date : string)
  : M (Series L R) :=
  mde_get_implied_returns (_market_data_engine self) start_date end_date
                          (risk_aversion (_calc_settings self)).

Definition get_asset_universe (self : BLEngine) : list L := universe self.

Definition get_dates (self : BLEngine) : string * string :=
  (start_date (_calc_settings self), calculation_date (_calc_settings self)).

(** The body of the [try] of [_get_weights]. *)
Definition mat_1_of (self : BLEngine) (market_cov view_matrix view_cov : DataFrame L R)
  : result (DataFrame L R) :=
  let scaled := df_divide view_cov (tau (_calc_settings self)) in
  pc <-- df_dot view_matrix market_cov ;;
  pcp <-- df_dot pc (df_T view_matrix) ;;
  df_add scaled pcp.

Definition mat_2_of (self : BLEngine) (market_weights : Series L R)
           (market_cov view_matrix : DataFrame L R)
           (view_out_performance : Series L R) : result (Series L R) :=
  let scaled := series_divide view_out_performance
                              (risk_aversion (_calc_settings self)) in
  pc <-- df_dot view_matrix market_cov ;;
  pcw <-- df_dot_series pc market_weights ;;
  series_sub scaled pcw.

(** Black-Litterman calculation to derive target weights.  A [ValueError]
    of the first block is caught and reported on the console; execution
    goes on to read [mat_1], which was never assigned. *)
Definition _get_weights (self : BLEngine) (market_weights : Series L R)
           (market_cov view_matrix view_cov : DataFrame L R)
           (view_out_performance : Series L R) : M (Series L R) :=
  match mat_1_of self market_cov view_matrix view_cov with
  | Raise ValueError =>
      _ <- print "matrix not aligned?" ;;
      raise UnboundLocalError
  | Raise e => raise e
  | Ok mat_1 =>
      inverse <- match np_linalg_inv (df_values mat_1) with
                 | Some m => ret m
                 | None => raise LinAlgError
                 end ;;
      mat_1_inv <- lift (pd_DataFrame inverse (df_index mat_1) (df_index mat_1)) ;;
      mat_2 <- lift (mat_2_of self market_weights market_cov view_matrix
                              view_out_performance) ;;
      lift (pm <-- df_dot (df_T view_matrix) mat_1_inv ;;
            adj <-- df_dot_series pm mat_2 ;;
            series_add market_weights adj)
  end.

(** [pd.DataFrame([x], index=[id], columns=[id])] *)
Definition single_cell (id : L) (x : R) : DataFrame L R :=
  {| df_index := [id]; df_columns := [id]; df_values := [[x]] |}.

(** [pd.Series([x], index=[id])] *)
Definition single_entry (id : L) (x : R) : Series L R :=
  {| s_index := [id]; s_values := [x]; s_name := None |}.

(** Target weights from the view allocation and the stated confidence. *)
Definition _get_view_target_weights (self : BLEngine) (view : View)
           (market_weights : Series L R) (market_covariance view_matrix : DataFrame L R)
           (view_out_performance : Series L R) : M (Series L R) :=
  let zero_view_cov := single_cell (view_id view) zero in
  full_confidence_weights <-
    _get_weights self market_weights market_covariance view_matrix
                 zero_view_cov view_out_performance ;;
  lift (max_weight_difference <-- series_sub full_confidence_weights market_weights ;;
        series_add market_weights
                   (series_scale (view_confidence view) max_weight_difference)).

(** Sum of squared errors between two series: [sum([x ** 2 for x in diff])]. *)
Definition _get_sum_squares_error (series_1 series_2 : Series L R) : result R :=
  diff <-- series_sub series_1 series_2 ;;
  Ok (fold_left nadd (map (fun x => nsquare x) (s_values diff)) zero).

(** The objective closed over in [_confidence_to_variance]. *)
Definition _error_vs_target_weights (self : BLEngine) (view : View)
           (market_weights : Series L R) (market_covariance view_matrix : DataFrame L R)
           (view_out_performance target_weights : Series L R) (var : R) : M R :=
  let view_cov := single_cell (view_id view) var in
  weights_for_cov <-
    _get_weights self market_weights market_covariance view_matrix
                 view_cov view_out_performance ;;
  lift (_get_sum_squares_error weights_for_cov target_weights).

(** [variance.x[0]] *)
Definition first_component (r : OptimizeResult R) : M R :=
  match opt_x r with
  | x :: _ => ret x
  | [] => raise IndexError
  end.

(** Convert a view confidence level to a variance for that view. *)
Definition _confidence_to_variance (self : BLEngine) (view : View)
           (market_weights : Series L R) (market_covariance : DataFrame L R) : M R :=
  let view_matrix := get_view_data_frame view (universe self) in
  let view_out_performance :=
    single_entry (view_id view) (view_out_performance view) in
  target_weights <-
    _get_view_target_weights self view market_weights market_covariance
                             view_matrix view_out_performance ;;
  variance <-
    optimize_minimize
      (_error_vs_target_weights self view market_weights market_covariance
                                view_matrix view_out_performance target_weights)
      initial_guess ;;
  first_component variance.

(** [d.update({k: v})] on a dict kept as its items in insertion order. *)
Fixpoint dict_update (d : list (L * R)) (k : L) (v : R) : list (L * R) :=
  match d with
  | [] => [(k, v)]
  | (k', v') :: d' =>
      if label_eqb k' k then (k, v) :: d' else (k', v') :: dict_update d' k v
  end.

(** The loop over [all_views], from the dict built so far. *)
Fixpoint calibrate_views (self : BLEngine) (market_weights : Series L R)
         (market_covariance : DataFrame L R)
         (views : list View) (cov_by_view : list (L * R)) : M (list (L * R)) :=
  match views with
  | [] => ret cov_by_view
  | view :: rest =>
      var <- _confidence_to_variance self view market_weights market_covariance ;;
      calibrate_views self market_weights market_covariance rest
                      (dict_update cov_by_view (view_id view) var)
  end.

(** Build a diagonal covariance matrix from the views, based on the
    confidence in each view. *)
Definition get_view_covariances_from_confidences (self : BLEngine)
           (market_weights : Series L R) (market_covariance : DataFrame L R)
           (view_collection : ViewCollection) : M (DataFrame L R) :=
  let all_views := get_all_views view_collection in
  cov_by_view <- calibrate_views self market_weights market_covariance all_views [] ;;
  let var_series := series_of_dict cov_by_view in
  lift (pd_DataFrame (np_diag (s_values var_series))
                     (s_index var_series) (s_index var_series)).

(** Derive target portfolio weights based on the Black-Litterman model. *)
Definition get_black_litterman_weights (self : BLEngine)
           (view_collection : ViewCollection) (start_date end_date : string)
  : M (Series L R) :=
  market_weights <- mde_get_market_weights (_market_data_engine self) end_date ;;
  market_cov <- mde_get_annualised_cov_matrix (_market_data_engine self)
                                              start_date end_date ;;
  let view_mat := get_view_matrix view_collection (universe self) in
  let view_out_performance := get_view_out_performances view_collection in
  view_cov <- get_view_covariances_from_confidences self market_weights
                                                    market_cov view_collection ;;
  bl_weights <- _get_weights self market_weights market_cov view_mat view_cov
                             view_out_performance ;;
  ret (series_rename bl_weights Weights_BLACK_LITTERMAN).

End Engine.

(** ** The closed form of the specification, by position

    The three formulas of the weight solver written on plain matrices:
    [n] assets, [k] views, [P] of shape [k x n]. *)

Section ClosedForm.
Context {R : Type} `{Num R}.

(** M = view_cov / tau + P . market_cov . P^T *)
Definition precision_matrix (tau_ : R) (n k : nat) (S P Om : list (list R))
  : list (list R) :=
  mat_map2 nadd (map (map (fun x => ndiv x tau_)) Om)
           (mat_mul (mat_mul P S n) (transpose n P) k).

(** adjustment_vector = Q / risk_aversion - P . market_cov . market_weights *)
Definition adjustment_vector (ra : R) (n : nat) (w : list R) (S P : list (list R))
           (Q : list R) : list R :=
  map2 nsub (map (fun x => ndiv x ra) Q) (mat_vec (mat_mul P S n) w).

(** posterior_weights = market_weights + P^T . M_inv . adjustment_vector *)
Definition posterior_weights (ra : R) (n k : nat) (w : list R)
           (S P M_inv : list (list R)) (Q : list R) : list R :=
  map2 nadd w (mat_vec (mat_mul (transpose n P) M_inv k)
                       (adjustment_vector ra n w S P Q)).

End ClosedForm.


(** ** Concrete carriers *)

(** Python floats: IEEE 754 binary64. *)
#[export] Instance float_Num : Num PrimFloat.float := {|
  zero := 0%float;
  nan := PrimFloat.nan;
  nadd := PrimFloat.add;
  nsub := PrimFloat.sub;
  nmul := PrimFloat.mul;
  ndiv := PrimFloat.div;
  (* the C library's pow(x, 2.0) is the product up to its last bit *)
  nsquare := fun x => PrimFloat.mul x x;
  initial_guess := 0.1%float
|}.

(** String labels, ordered as Python orders [str]. *)
#[export] Instance string_Label : Label string := {|
  label_eqb := String.eqb;
  label_leb := String.leb;
  label_eqb_eq := String.eqb_eq
|}.

(** ** A reference implementation of the collaborators *)

Module Reference.

(** Modelled from the spec: [black_litterman/domain/views.py] is not part
    of the sources at hand.  A view is
    [{id, name, confidence, out_performance, allocation}]; its row holds
    the allocation of each asset of the universe, zero for assets the
    view does not reference. *)
Record View : Type := {
  id : string;
  name : string;
  confidence : float;
  out_performance : float;
  allocation : list (string * float)
}.

(** Modelled from the spec: the allocation is a mapping of assets to
    weights; an asset it does not mention weighs zero in the view. *)
Fixpoint allocation_of (asset : string) (alloc : list (string * float)) : float :=
  match alloc with
  | [] => 0%float
  | (a, x) :: rest => if String.eqb a asset then x else allocation_of asset rest
  end.

(** Modelled from the spec: the row of a view, aligned to the assets. *)
Definition view_row (v : View) (assets : list string) : list float :=
  map (fun a => allocation_of a (allocation v)) assets.

(** Modelled from the spec: a collection is an ordered set of views; the
    view matrix has one row per view and one column per asset, the
    out-performance vector one entry per view, in the same order. *)
Definition ViewCollection : Type := list View.

(** Modelled from the spec: the operations of section 6 on views and
    collections of views. *)
Definition reference_Views : Views string float View ViewCollection := {|
  view_id := id;
  view_confidence := confidence;
  view_out_performance := out_performance;
  get_view_data_frame := fun v assets =>
    {| df_index := [id v]; df_columns := assets; df_values := [view_row v assets] |};
  get_all_views := fun vc => vc;
  get_view_matrix := fun vc assets =>
    {| df_index := map id vc;
       df_columns := assets;
       df_values := map (fun v => view_row v assets) vc |};
  get_view_out_performances := fun vc =>
    {| s_index := map id vc; s_values := map out_performance vc; s_name := None |}
|}.

(** *** Matrix inversion by Gauss-Jordan elimination with partial pivoting;
    [None] when a pivot is exactly zero or the input is not square. *)

Definition identity (n : nat) : list (list float) :=
  map (fun i => map (fun j => if Nat.eqb i j then 1%float else 0%float) (seq 0 n))
      (seq 0 n).

Definition set_row (i : nat) (row : list float) (m : list (list float)) :=
  firstn i m ++ row :: skipn (S i) m.

(** Row at or below [c] with the largest magnitude in column [c]. *)
Definition pivot_row (c : nat) (m : list (list float)) : nat :=
  fold_left
    (fun best r =>
       if PrimFloat.ltb (PrimFloat.abs (nth c (nth best m []) 0%float))
                        (PrimFloat.abs (nth c (nth r m []) 0%float))
       then r else best)
    (seq c (length m - c)) c.

Definition eliminate_column (c : nat) (m : list (list float))
  : option (list (list float)) :=
  let p := pivot_row c m in
  let prow := nth p m [] in
  let pivot := nth c prow 0%float in
  if PrimFloat.eqb pivot 0%float then None
  else
    let swapped := set_row p (nth c m []) (set_row c prow m) in
    let scaled := map (fun x => PrimFloat.div x pivot) prow in
    Some (map (fun ir =>
                 let '(i, row) := ir in
                 if Nat.eqb i c then scaled
                 else let factor := nth c row 0%float in
                      map2 (fun x y => PrimFloat.sub x (PrimFloat.mul factor y))
                           row scaled)
              (combine (seq 0 (length swapped)) swapped)).

Fixpoint eliminate (cols : list nat) (m : list (list float))
  : option (list (list float)) :=
  match cols with
  | [] => Some m
  | c :: rest =>
      match eliminate_column c m with
      | Some m' => eliminate rest m'
      | None => None
      end
  end.

Definition gauss_jordan_inv (m : list (list float)) : option (list (list float)) :=
  let n := length m in
  if has_shape n n m then
    match eliminate (seq 0 n) (map2 (@app float) m (identity n)) with
    | Some reduced => Some (map (skipn n) reduced)
    | None => None
    end
  else None.

(** *** A derivative-free stand-in for the scalar minimizer: compass
    search with step halving, a bounded number of objective calls. *)

Fixpoint compass (fuel : nat) (f : float -> M float) (x fx step : float)
  : M float :=
  match fuel with
  | O => ret x
  | S fuel' =>
      fr <- f (PrimFloat.add x step) ;;
      if PrimFloat.ltb fr fx then compass fuel' f (PrimFloat.add x step) fr step
      else
        fl <- f (PrimFloat.sub x step) ;;
        if PrimFloat.ltb fl fx then compass fuel' f (PrimFloat.sub x step) fl step
        else compass fuel' f x fx (PrimFloat.div step 2%float)
  end.

Definition compass_minimize (f : float -> M float) (x0 : float)
  : M (OptimizeResult float) :=
  fx <- f x0 ;;
  x <- compass 120 f x0 fx 0.05%float ;;
  ret {| opt_x := [x]; opt_success := true |}.

(** A minimizer that gives up at once: it reports failure and a negative
    final iterate, as an optimizer that ran out of iterations may. *)
Definition failing_minimize (f : float -> M float) (x0 : float)
  : M (OptimizeResult float) :=
  ret {| opt_x := [(-1)%float]; opt_success := false |}.

Definition reference_Imports : Imports float := {|
  np_linalg_inv := gauss_jordan_inv;
  optimize_minimize := compass_minimize;
  Weights_MARKET := "market";
  Weights_BLACK_LITTERMAN := "black_litterman"
|}.

Definition failing_Imports : Imports float := {|
  np_linalg_inv := gauss_jordan_inv;
  optimize_minimize := failing_minimize;
  Weights_MARKET := "market";
  Weights_BLACK_LITTERMAN := "black_litterman"
|}.

(** *** The two-asset scenario of the specification *)

Definition assets : list string := ["A"; "B"].

Definition market_weights : Series string float :=
  {| s_index := assets; s_values := [0.6; 0.4]%float; s_name := None |}.

Definition market_cov : DataFrame string float :=
  {| df_index := assets; df_columns := assets;
     df_values := [[0.04; 0.01]; [0.01; 0.09]]%float |}.

Definition settings : @CalculationSettings string float := {|
  tau := 0.05%float;
  risk_aversion := 2.5%float;
  start_date := "2019-01-01";
  calculation_date := "2019-12-31";
  asset_universe := [("A", "Asset A"); ("B", "Asset B")]
|}.

Definition market_data : MarketDataEngine string float := {|
  mde_get_market_weights := fun _ => ret market_weights;
  mde_get_annualised_cov_matrix := fun _ _ => ret market_cov;
  mde_get_implied_returns := fun _ _ ra =>
    ret {| s_index := assets;
           s_values := map (fun x => PrimFloat.mul ra x)
                           (mat_vec (df_values market_cov) (s_values market_weights));
           s_name := None |}
|}.

Definition engine : BLEngine := {|
  _market_data_engine := market_data;
  _calc_settings := settings
|}.

(** "A outperforms B by 3%", held with confidence 0.5. *)
Definition view_1 : View := {|
  id := "v1"; name := "A outperforms B";
  confidence := 0.5%float; out_performance := 0.03%float;
  allocation := [("A", 1%float); ("B", (-1)%float)]
|}.

Definition view_2 : View := {|
  id := "v2"; name := "B returns 5%";
  confidence := 0.25%float; out_performance := 0.05%float;
  allocation := [("B", 1%float)]
|}.

(** A view on an asset the market data does not cover. *)
Definition view_c : View := {|
  id := "v3"; name := "C outperforms A";
  confidence := 0.5%float; out_performance := 0.02%float;
  allocation := [("C", 1%float); ("A", (-1)%float)]
|}.

(** A second view filed under the id of [view_1]. *)
Definition view_1_again : View := {|
  id := "v1"; name := "B returns 5%, again";
  confidence := 0.25%float; out_performance := 0.05%float;
  allocation := [("B", 1%float)]
|}.

(** A view that allocates nothing: P . Sigma . P^T is the 1x1 zero matrix. *)
Definition view_flat : View := {|
  id := "v0"; name := "nothing moves";
  confidence := 0.5%float; out_performance := 0.01%float;
  allocation := []
|}.

(** An engine whose configured universe has an asset "C" that the market
    data ("A", "B") does not cover. *)
Definition settings_abc : @CalculationSettings string float := {|
  tau := 0.05%float;
  risk_aversion := 2.5%float;
  start_date := "2019-01-01";
  calculation_date := "2019-12-31";
  asset_universe := [("A", "Asset A"); ("B", "Asset B"); ("C", "Asset C")]
|}.

Definition engine_abc : BLEngine := {|
  _market_data_engine := market_data;
  _calc_settings := settings_abc
|}.

End Reference.

#[export] Existing Instance Reference.reference_Views.

(** ** The calibration of the specification

    What section 4.2 of the specification says of the calibration, written
    down independently of the loop and of the pandas calls of the engine. *)

Section CalibrationSpec.
Context {L : Type} `{Label L} {R : Type} `{Num R}.

(** Run [f] on every element, in order; the first failure ends the run. *)
Fixpoint mapM {A B} (f : A -> M B) (l : list A) : M (list B) :=
match l with
| [] => ret []
| a :: l' =>
    b <- f a ;;
    bs <- mapM f l' ;;
    ret (b :: bs)
end.

(** Omega: the variances on the diagonal, labelled by the view ids on both
  axes. *)
Definition diagonal_frame (ids : list L) (variances : list R) : DataFrame L R :=
{| df_index := ids; df_columns := ids; df_values := np_diag variances |}.

(** The entry in row [i], column [j]. *)
Definition cell (d : DataFrame L R) (i j : nat) : R :=
nth j (nth i (df_values d) []) nan.

(** target = market + confidence x (full_confidence - market), entry by entry. *)
Definition interpolate (confidence : R) (market full_confidence : list R) : list R :=
map2 (fun m f => nadd m (nmul confidence (nsub f m))) market full_confidence.

End CalibrationSpec.

(** ** Configuration and construction *)

(** [black_litterman.constants.Configuration]: the keys of the
    configuration mapping. *)
Class ConfigurationKeys : Type := {
  PARAMETERS : string;
  MARKET_DATA : string;
  TAU : string;
  RISK_AVERSION : string;
  FIRST_DATE : string;
  LAST_DATE : string;
  ASSET_UNIVERSE : string
}.

Section Configuration.
Context {R : Type} `{Num R} `{ConfigurationKeys}.

Set Warnings "-register-all".

(** The values of a configuration mapping as [json.load] builds them: the
    [Any] of [Dict[str, Any]]. *)
Inductive json : Type :=
| JNull
| JBool (b : bool)
| JNumber (x : R)
| JString (s : string)
| JArray (items : list json)
| JObject (fields : list (string * json)).

Definition KeyError : exn := OtherError "KeyError".
Definition TypeError : exn := OtherError "TypeError".

Fixpoint dict_get {V} (key : string) (d : list (string * V)) : option V :=
  match d with
  | [] => None
  | (k, v) :: d' => if String.eqb k key then Some v else dict_get key d'
  end.

(** [d[key]] on a dict. *)
Definition getitem {V} (d : list (string * V)) (key : string) : result V :=
  match dict_get key d with
  | Some v => Ok v
  | None => Raise KeyError
  end.

(** [value[key]] with a string key on any value: only a dict can be
    subscripted that way. *)
Definition subscript (value : json) (key : string) : result json :=
  match value with
  | JObject fields => getitem fields key
  | _ => Raise TypeError
  end.

(** An instance of the dataclass as Python holds it: the constructor stores
    its five arguments without looking at them. *)
Record CalculationSettingsObject : Type := {
  obj_tau : json;
  obj_risk_aversion : json;
  obj_start_date : json;
  obj_calculation_date : json;
  obj_asset_universe : json
}.

Definition parse_from_config (config : list (string * json))
  : result CalculationSettingsObject :=
  config_params <-- getitem config PARAMETERS ;;
  config_data <-- getitem config MARKET_DATA ;;
  tau_ <-- subscript config_params TAU ;;
  risk_aversion_ <-- subscript config_params RISK_AVERSION ;;
  first_date <-- subscript config_data FIRST_DATE ;;
  last_date <-- subscript config_data LAST_DATE ;;
  universe_ <-- subscript config_data ASSET_UNIVERSE ;;
  Ok {| obj_tau := tau_;
        obj_risk_aversion := risk_aversion_;
        obj_start_date := first_date;
        obj_calculation_date := last_date;
        obj_asset_universe := universe_ |}.

(** The fields read at their annotated types
    ([float], [float], [str], [str], [Dict[str, str]]). *)
Fixpoint as_str_dict (fields : list (string * json)) : option (list (string * string)) :=
  match fields with
  | [] => Some []
  | (k, JString s) :: rest =>
      match as_str_dict rest with
      | Some d => Some ((k, s) :: d)
      | None => None
      end
  | _ => None
  end.

Definition settings_of_object (o : CalculationSettingsObject)
  : option (@CalculationSettings string R) :=
  match obj_tau o, obj_risk_aversion o, obj_start_date o,
        obj_calculation_date o, obj_asset_universe o with
  | JNumber t, JNumber ra, JString sd, JString cd, JObject fields =>
      match as_str_dict fields with
      | Some au => Some {| tau := t; risk_aversion := ra; start_date := sd;
                           calculation_date := cd; asset_universe := au |}
      | None => None
      end
  | _, _, _, _, _ => None
  end.

(** A configuration mapping that holds given settings under the keys. *)
Definition config_of_settings (st : @CalculationSettings string R)
  : list (string * json) :=
  [(PARAMETERS, JObject [(TAU, JNumber (tau st));
                         (RISK_AVERSION, JNumber (risk_aversion st))]);
   (MARKET_DATA, JObject [(FIRST_DATE, JString (start_date st));
                          (LAST_DATE, JString (calculation_date st));
                          (ASSET_UNIVERSE,
                           JObject (map (fun kv => (fst kv, JString (snd kv)))
                                        (asset_universe st)))])].

End Configuration.

Arguments json R : clear implicits.
Arguments CalculationSettingsObject R : clear implicits.

Section Construction.
Context {L R : Type}.

(** [black_litterman.market_data.data_readers.BaseDataReader], as far as
    the engine uses it. *)
Record BaseDataReader : Type := {
  get_market_data_engine : string -> string -> M (MarketDataEngine L R)
}.

(** [BLEngine.__init__] *)
Definition BLEngine_init (data_reader : BaseDataReader)
           (calc_settings : @CalculationSettings L R) : M (@BLEngine L R) :=
  engine <- get_market_data_engine data_reader (start_date calc_settings)
                                   (calculation_date calc_settings) ;;
  ret {| _market_data_engine := engine; _calc_settings := calc_settings |}.

End Construction.

(** The keys of the specification, for the examples. *)
Definition reference_keys : ConfigurationKeys := {|
  PARAMETERS := "parameters";
  MARKET_DATA := "market_data";
  TAU := "tau";
  RISK_AVERSION := "risk_aversion";
  FIRST_DATE := "first_date";
  LAST_DATE := "last_date";
  ASSET_UNIVERSE := "asset_universe"
|}.

(** A reader that serves the market data of the two-asset scenario. *)
Definition reference_reader : @BaseDataReader string PrimFloat.float :=
  {| get_market_data_engine := fun _ _ => ret Reference.market_data |}.

(** A reader whose source is not available. *)
Definition failing_reader : @BaseDataReader string PrimFloat.float :=
  {| get_market_data_engine := fun _ _ => raise (OtherError "FileNotFoundError") |}.

(** The market weights of the scenario, listed from "B" to "A". *)
Definition market_weights_ba : Series string PrimFloat.float :=
  {| s_index := ["B"; "A"]; s_values := [0.4; 0.6]%float; s_name := None |}.

(** ** numpy.linalg.inv as LAPACK computes it

    [numpy.linalg.inv(a)] solves [a . x = identity] with LAPACK's [gesv]:
    an LU factorisation with partial pivoting ([getrf]) followed by the
    two triangular solves ([getrs]).  [LinAlgError] is raised when, and
    only when, the factorisation meets a pivot that is exactly zero. *)

From Stdlib Require Import ZArith.
From Stdlib Require FloatOps.

Module Lapack.







(** *** Matrices that are not invertible

    A binary64 number is an integer times a power of two, so whether a
    matrix of such numbers is invertible is a question about integers. *)

(** The exact value of a finite number, times 2^1074. *)
Definition scaled (x : float) : option Z :=
  match FloatOps.Prim2SF x with
  | SpecFloat.S754_zero _ => Some 0%Z
  | SpecFloat.S754_finite s m e =>
      let v := (Z.pos m * 2 ^ (e + 1074))%Z in
      Some (if s then (- v)%Z else v)
  | _ => None
  end.



(** *** Degenerate views

    Two views that say the same thing at two scales: "A outperforms B",
    once with the allocation (10/16, -10/16) and once with
    (7/16, -7/16). *)




(** Both views held without uncertainty. *)
Definition zero_view_cov : DataFrame string float :=
  {| df_index := ["v1"; "v2"]; df_columns := ["v1"; "v2"];
     df_values := [[0; 0]; [0; 0]]%float |}.

End Lapack.
(** ** Facts about the monad *)

Section MonadFacts.

Lemma bind_ret_l {A B} (a : A) (k : A -> M B) : bind (ret a) k = k a.
Proof. unfold bind, ret. destruct (k a); reflexivity. Qed.

Lemma bind_lift_ok {A B} (a : A) (k : A -> M B) : bind (lift (Ok a)) k = k a.
Proof. apply bind_ret_l. Qed.

Lemma bind_pure {A B} (a : A) (k : A -> M B) : bind ([], Ok a) k = k a.
Proof. apply bind_ret_l. Qed.

Lemma bind_raise {A B} (out : list string) (e : exn) (k : A -> M B) :
  bind (out, Raise e) k = (out, Raise e).
Proof. reflexivity. Qed.

Lemma bind_ext_on {A B} (c : M A) (k1 k2 : A -> M B) :
  (forall out a, c = (out, Ok a) -> k1 a = k2 a) ->
  bind c k1 = bind c k2.
Proof.
  intros Hk. destruct c as [out [a | e]]; simpl; [| reflexivity].
  rewrite (Hk out a eq_refl). reflexivity.
Qed.

Lemma bind_assoc {A B C} (c : M A) (k : A -> M B) (k' : B -> M C) :
  bind (bind c k) k' = bind c (fun a => bind (k a) k').
Proof.
  destruct c as [out [a | e]]; simpl; [| reflexivity].
  destruct (k a) as [out1 [b | e1]]; simpl; [| reflexivity].
  destruct (k' b) as [out2 r]. rewrite app_assoc. reflexivity.
Qed.

Lemma bind_ok_inv {A B} (c : M A) (k : A -> M B) out b :
  bind c k = (out, Ok b) ->
  exists out1 a out2, c = (out1, Ok a) /\ k a = (out2, Ok b) /\ out = out1 ++ out2.
Proof.
  destruct c as [out1 [a | e]]; simpl; [| discriminate].
  destruct (k a) as [out2 r] eqn:E. intros Heq. inversion Heq; subst.
  exists out1, a, out2. auto.
Qed.

End MonadFacts.

(** ** Facts about aligned pandas operations *)

Section PandasFacts.
Context {L : Type} `{Label L} {R : Type} `{Num R}.

Lemma label_eqb_refl (a : L) : label_eqb a a = true.
Proof. apply label_eqb_eq. reflexivity. Qed.

Lemma index_equals_refl (a : list L) : index_equals a a = true.
Proof.
  induction a as [| x a IH]; simpl; [reflexivity |].
  rewrite label_eqb_refl, IH. reflexivity.
Qed.

Lemma index_equals_eq (a b : list L) : index_equals a b = true -> a = b.
Proof.
  revert b. induction a as [| x a IH]; intros [| y b]; simpl;
    try discriminate; [reflexivity |].
  intros Hab. apply andb_true_iff in Hab as [Hxy Hab].
  apply label_eqb_eq in Hxy. f_equal; auto.
Qed.

Lemma index_union_same (a : list L) : index_union a a = a.
Proof.
  unfold index_union. destruct a as [| x a]; [reflexivity |].
  rewrite index_equals_refl. reflexivity.
Qed.

Lemma get_indexer_same (a : list L) : get_indexer a a = Ok None.
Proof. unfold get_indexer. rewrite index_equals_refl. reflexivity. Qed.

Lemma dot_common_same (a : list L) : dot_common a a = Ok a.
Proof.
  unfold dot_common. rewrite index_union_same, Nat.ltb_irrefl. reflexivity.
Qed.

Lemma series_reindex_same (s : Series L R) : series_reindex s (s_index s) = Ok s.
Proof. unfold series_reindex. rewrite get_indexer_same. reflexivity. Qed.

Lemma df_reindex_rows_same (d : DataFrame L R) : df_reindex_rows d (df_index d) = Ok d.
Proof. unfold df_reindex_rows. rewrite get_indexer_same. reflexivity. Qed.

Lemma df_reindex_columns_same (d : DataFrame L R) :
  df_reindex_columns d (df_columns d) = Ok d.
Proof. unfold df_reindex_columns. rewrite get_indexer_same. reflexivity. Qed.

(** A product of aligned frames is the positional matrix product. *)
Lemma df_dot_aligned (a b : DataFrame L R) :
  df_columns a = df_index b ->
  df_dot a b = Ok {| df_index := df_index a;
                     df_columns := df_columns b;
                     df_values := mat_mul (df_values a) (df_values b)
                                          (length (df_columns b)) |}.
Proof.
  intros Hab. unfold df_dot. rewrite Hab, dot_common_same. simpl.
  rewrite <- Hab, df_reindex_columns_same. simpl.
  rewrite Hab, df_reindex_rows_same. reflexivity.
Qed.

Lemma df_dot_series_aligned (a : DataFrame L R) (s : Series L R) :
  df_columns a = s_index s ->
  df_dot_series a s = Ok {| s_index := df_index a;
                            s_values := mat_vec (df_values a) (s_values s);
                            s_name := None |}.
Proof.
  intros Hab. unfold df_dot_series. rewrite Hab, dot_common_same. simpl.
  rewrite <- Hab, df_reindex_columns_same. simpl.
  rewrite Hab, series_reindex_same. reflexivity.
Qed.

Lemma df_add_aligned (a b : DataFrame L R) :
  df_index a = df_index b -> df_columns a = df_columns b ->
  df_add a b = Ok {| df_index := df_index a;
                     df_columns := df_columns a;
                     df_values := mat_map2 nadd (df_values a) (df_values b) |}.
Proof.
  intros Hi Hc. unfold df_add. rewrite Hi, Hc, !index_equals_refl. reflexivity.
Qed.

Lemma series_arith_aligned (f : R -> R -> R) (a b : Series L R) :
  s_index a = s_index b ->
  series_arith f a b = Ok {| s_index := s_index a;
                             s_values := map2 f (s_values a) (s_values b);
                             s_name := op_result_name (s_name a) (s_name b) |}.
Proof.
  intros Hi. unfold series_arith. rewrite Hi, index_equals_refl. reflexivity.
Qed.

Lemma op_result_name_none (a : option string) : op_result_name a None = None.
Proof. destruct a; reflexivity. Qed.

Lemma map2_length {A B C} (f : A -> B -> C) (u : list A) (v : list B) :
  length (map2 f u v) = Nat.min (length u) (length v).
Proof.
  revert v. induction u as [| a u IH]; intros [| b v]; simpl; auto.
Qed.

End PandasFacts.

(** ** The weight solver *)

Section SolverFacts.
Context {L : Type} `{Label L} {R : Type} `{Num R} `{Imports R}.
Context {View ViewCollection : Type} `{Views L R View ViewCollection}.

Implicit Types (self : @BLEngine L R).

(** With aligned axes the first block of [_get_weights] computes the
    matrix M of the specification, labelled by the views. *)
Lemma mat_1_of_aligned self (mc P Om : DataFrame L R) (U V : list L) :
  df_index mc = U -> df_columns mc = U -> df_columns P = U ->
  df_index P = V -> df_index Om = V -> df_columns Om = V ->
  mat_1_of self mc P Om =
  Ok {| df_index := V; df_columns := V;
        df_values := precision_matrix (tau (_calc_settings self))
                       (length U) (length V)
                       (df_values mc) (df_values P) (df_values Om) |}.
Proof.
  intros Hmi Hmc Hpc Hpi Hoi Hoc. unfold mat_1_of.
  rewrite df_dot_aligned by congruence. simpl.
  rewrite df_dot_aligned by (simpl; congruence). simpl.
  rewrite df_add_aligned by (simpl; congruence). simpl.
  unfold precision_matrix. congruence.
Qed.

Lemma mat_2_of_aligned self (mw : Series L R) (mc P : DataFrame L R)
      (Q : Series L R) (U V : list L) :
  s_index mw = U -> df_index mc = U -> df_columns mc = U -> df_columns P = U ->
  df_index P = V -> s_index Q = V ->
  mat_2_of self mw mc P Q =
  Ok {| s_index := V;
        s_values := adjustment_vector (risk_aversion (_calc_settings self))
                      (length U) (s_values mw) (df_values mc) (df_values P)
                      (s_values Q);
        s_name := None |}.
Proof.
  intros Hwi Hmi Hmc Hpc Hpi Hqi. unfold mat_2_of.
  rewrite df_dot_aligned by congruence. simpl.
  rewrite df_dot_series_aligned by (simpl; congruence). simpl.
  unfold series_sub. rewrite series_arith_aligned by (simpl; congruence). simpl.
  unfold adjustment_vector. rewrite op_result_name_none. congruence.
Qed.

(** What [_get_weights] does once [mat_1] is there and can be inverted. *)
Lemma get_weights_aligned self (mw : Series L R) (mc P Om : DataFrame L R)
      (Q : Series L R) (U V : list L) (M_inv : list (list R)) :
  s_index mw = U -> df_index mc = U -> df_columns mc = U -> df_columns P = U ->
  df_index P = V -> df_index Om = V -> df_columns Om = V -> s_index Q = V ->
  np_linalg_inv (precision_matrix (tau (_calc_settings self)) (length U) (length V)
                   (df_values mc) (df_values P) (df_values Om)) = Some M_inv ->
  has_shape (length V) (length V) M_inv = true ->
  _get_weights self mw mc P Om Q =
  ([], Ok {| s_index := U;
             s_values := posterior_weights (risk_aversion (_calc_settings self))
                           (length U) (length V) (s_values mw) (df_values mc)
                           (df_values P) M_inv (s_values Q);
             s_name := None |}).
Proof.
  intros Hwi Hmi Hmc Hpc Hpi Hoi Hoc Hqi Hinv Hshape. unfold _get_weights.
  rewrite (mat_1_of_aligned self mc P Om Hmi Hmc Hpc Hpi Hoi Hoc). simpl df_values.
  rewrite Hinv, bind_ret_l. simpl df_index.
  unfold pd_DataFrame. rewrite Hshape, bind_lift_ok.
  rewrite (mat_2_of_aligned self mw mc P Q Hwi Hmi Hmc Hpc Hpi Hqi), bind_lift_ok.
  rewrite df_dot_aligned by (simpl; congruence). simpl.
  rewrite df_dot_series_aligned by reflexivity. simpl.
  unfold series_add. rewrite series_arith_aligned by (simpl; congruence). simpl.
  unfold lift, posterior_weights. rewrite op_result_name_none. congruence.
Qed.

Lemma mat_vec_length (a : list (list R)) (v : list R) :
  length (mat_vec a v) = length a.
Proof. unfold mat_vec. apply length_map. Qed.

Lemma mat_mul_length (a b : list (list R)) (n : nat) :
  length (mat_mul a b n) = length a.
Proof. unfold mat_mul. apply length_map. Qed.

Lemma transpose_length (n : nat) (m : list (list R)) :
  length (transpose n m) = n.
Proof. unfold transpose. rewrite length_map, length_seq. reflexivity. Qed.

Lemma posterior_weights_length (ra : R) (n k : nat) (w : list R)
      (S P M_inv : list (list R)) (Q : list R) :
  length w = n ->
  length (posterior_weights ra n k w S P M_inv Q) = n.
Proof.
  intros Hw. unfold posterior_weights.
  rewrite map2_length, mat_vec_length, mat_mul_length, transpose_length, Hw.
  apply Nat.min_id.
Qed.

(** C1. On aligned inputs (market weights and covariance labelled by the
    assets the view matrix has as columns; view covariance and
    out-performances labelled by the views the view matrix has as rows),
    when [numpy.linalg.inv] inverts M = Omega / tau + P . Sigma . P^T,
    the weight solver returns
    market_weights + P^T . inverse(M) . (Q / risk_aversion - P . Sigma . market_weights),
    a series with the index and the length of [market_weights]. *)
Theorem get_weights_closed_form self (mw : Series L R) (mc P Om : DataFrame L R)
        (Q : Series L R) (M_inv : list (list R)) :
  let n := length (s_index mw) in
  let k := length (df_index P) in
  let settings := _calc_settings self in
  series_wf mw = true ->
  df_index mc = s_index mw -> df_columns mc = s_index mw ->
  df_columns P = s_index mw ->
  df_index Om = df_index P -> df_columns Om = df_index P ->
  s_index Q = df_index P ->
  np_linalg_inv (precision_matrix (tau settings) n k
                   (df_values mc) (df_values P) (df_values Om)) = Some M_inv ->
  has_shape k k M_inv = true ->
  exists bl_weights,
    _get_weights self mw mc P Om Q = ([], Ok bl_weights) /\
    s_values bl_weights =
      posterior_weights (risk_aversion settings) n k (s_values mw)
                        (df_values mc) (df_values P) M_inv (s_values Q) /\
    s_index bl_weights = s_index mw /\
    length (s_values bl_weights) = length (s_values mw).
Proof.
  intros n k settings Hwf Hmi Hmc Hpc Hoi Hoc Hqi Hinv Hshape.
  eexists. split; [| split; [| split]].
  - apply (@get_weights_aligned self mw mc P Om Q (s_index mw) (df_index P) M_inv);
      auto.
  - reflexivity.
  - reflexivity.
  - simpl. apply Nat.eqb_eq in Hwf. rewrite Hwf.
    apply posterior_weights_length. exact Hwf.
Qed.

(** What the [try] / [except ValueError] of [_get_weights] amounts to:
    the alignment error is reported on the console and replaced by the
    failure to read the unassigned [mat_1]. *)
Lemma get_weights_swallows_value_error self (mw : Series L R)
      (mc P Om : DataFrame L R) (Q : Series L R) :
  mat_1_of self mc P Om = Raise ValueError ->
  _get_weights self mw mc P Om Q = (["matrix not aligned?"], Raise UnboundLocalError).
Proof. intros Hraise. unfold _get_weights. rewrite Hraise. reflexivity. Qed.


End SolverFacts.

(** The solver on the scenario of the specification, with Omega = 0.0055. *)
Lemma get_weights_closed_form_witness :
  let P := get_view_data_frame Reference.view_1 Reference.assets in
  let Om := single_cell "v1" 0.0055%float in
  let Q := single_entry "v1" 0.03%float in
  exists bl_weights,
    @_get_weights _ _ _ _ Reference.reference_Imports Reference.engine
                  Reference.market_weights Reference.market_cov P Om Q
    = ([], Ok bl_weights) /\
    s_values bl_weights =
      posterior_weights 2.5%float 2 1 [0.6; 0.4]%float
                        (df_values Reference.market_cov) (df_values P)
                        [[4.5454545454545459]]%float (s_values Q) /\
    s_index bl_weights = ["A"; "B"] /\
    length (s_values bl_weights) = 2.
Proof.
  intros P Om Q.
  apply (@get_weights_closed_form _ _ _ _ Reference.reference_Imports
           Reference.engine Reference.market_weights Reference.market_cov
           P Om Q [[4.5454545454545459]]%float); reflexivity.
Defined.


(** C5. A view on asset "C", which the market covariance (assets "A", "B")
    does not have: [DataFrame.dot] raises the alignment [ValueError], the
    solver catches it, prints a line and goes on; the call then ends in an
    [UnboundLocalError] for [mat_1], not in an alignment error, and so does
    the blended computation that reaches the solver through the
    calibration. *)
Theorem get_weights_misaligned_unbound_local :
  let P := get_view_data_frame Reference.view_c ["A"; "B"; "C"] in
  df_columns P = ["A"; "B"; "C"] /\
  df_index Reference.market_cov = ["A"; "B"] /\
  mat_1_of Reference.engine_abc Reference.market_cov P (single_cell "v3" 0%float)
  = Raise ValueError /\
  @_get_weights _ _ _ _ Reference.reference_Imports Reference.engine_abc
                Reference.market_weights Reference.market_cov P
                (single_cell "v3" 0%float) (single_entry "v3" 0.02%float)
  = (["matrix not aligned?"], Raise UnboundLocalError) /\
  @get_black_litterman_weights _ _ _ _ Reference.reference_Imports _ _ _
     Reference.engine_abc [Reference.view_c] "2019-01-01" "2019-12-31"
  = (["matrix not aligned?"], Raise UnboundLocalError).
Proof. repeat split. Qed.

(** Labels that agree as sets but come in another order are not an error
    for pandas: the covariance with axes ("B", "A") is reindexed inside
    [DataFrame.dot] and the solver answers as on ("A", "B"). *)
Example get_weights_reordered_covariance :
  let P := get_view_data_frame Reference.view_1 Reference.assets in
  let Om := single_cell "v1" 0.0055%float in
  let Q := single_entry "v1" 0.03%float in
  let reordered :=
    {| df_index := ["B"; "A"]; df_columns := ["B"; "A"];
       df_values := [[0.09; 0.01]; [0.01; 0.04]]%float |} in
  @_get_weights _ _ _ _ Reference.reference_Imports Reference.engine
                Reference.market_weights reordered P Om Q
  = @_get_weights _ _ _ _ Reference.reference_Imports Reference.engine
                  Reference.market_weights Reference.market_cov P Om Q.
Proof. vm_compute. reflexivity. Qed.

(** A view covariance labelled by another id than the view: the sum of the
    first block is taken on the union of the labels and filled with NaN;
    the mismatch only surfaces at the last product, outside the [try], as
    the [ValueError] of pandas. *)
Example get_weights_mislabelled_view_cov :
  let P := get_view_data_frame Reference.view_1 Reference.assets in
  @_get_weights _ _ _ _ Reference.reference_Imports Reference.engine
                Reference.market_weights Reference.market_cov P
                (single_cell "other" 0.0055%float) (single_entry "v1" 0.03%float)
  = ([], Raise ValueError).
Proof. vm_compute. reflexivity. Qed.


(** ** The confidence calibration *)

Section CalibrationFacts.
Context {L : Type} `{Label L} {R : Type} `{Num R} `{Imports R}.
Context {View ViewCollection : Type} `{Views L R View ViewCollection}.

Implicit Types (self : @BLEngine L R) (view : View).

Lemma bind_ext {A B} (c : M A) (k1 k2 : A -> M B) :
(forall a, k1 a = k2 a) -> bind c k1 = bind c k2.
Proof. intros Hk. apply bind_ext_on. intros; apply Hk. Qed.

Lemma mapM_length {A B} (f : A -> M B) (l : list A) out bs :
mapM f l = (out, Ok bs) -> length bs = length l.
Proof.
revert out bs. induction l as [| a l IH]; intros out bs Hrun.
- inversion Hrun. reflexivity.
- simpl in Hrun.
  apply bind_ok_inv in Hrun as (o1 & b & o2 & _ & Hrest & _).
  apply bind_ok_inv in Hrest as (o3 & bs' & o4 & Hbs & Hret & _).
  inversion Hret; subst. simpl. f_equal. eapply IH; eauto.
Qed.

(** *** The dict of variances *)

Lemma label_eqb_sym (a b : L) : label_eqb a b = label_eqb b a.
Proof.
destruct (label_eqb a b) eqn:Eab, (label_eqb b a) eqn:Eba; try reflexivity.
- apply label_eqb_eq in Eab. subst. rewrite label_eqb_refl in Eba. discriminate.
- apply label_eqb_eq in Eba. subst. rewrite label_eqb_refl in Eab. discriminate.
Qed.

(** A key the dict does not hold yet goes to its end. *)
Lemma dict_update_fresh (d : list (L * R)) (k : L) (v : R) :
index_mem k (map fst d) = false ->
dict_update d k v = d ++ [(k, v)].
Proof.
induction d as [| [k' v'] d IH]; simpl; [reflexivity |].
intros Hfresh. apply orb_false_iff in Hfresh as [Hk Hd].
rewrite label_eqb_sym, Hk, IH by exact Hd. reflexivity.
Qed.

Lemma is_unique_app_cons (keys : list L) (k : L) (rest : list L) :
is_unique (keys ++ k :: rest) = true -> index_mem k keys = false.
Proof.
induction keys as [| x keys IH]; simpl; [reflexivity |].
intros Hu. apply andb_true_iff in Hu as [Hx Hu].
rewrite (IH Hu), orb_false_r.
unfold index_mem in Hx. rewrite existsb_app in Hx. simpl in Hx.
apply negb_true_iff in Hx.
apply orb_false_iff in Hx as [_ Hx]. apply orb_false_iff in Hx as [Hx _].
rewrite label_eqb_sym. exact Hx.
Qed.

(** With view ids that are new to the dict and pairwise different, the loop
  appends one item per view, in the order of the views. *)
Lemma calibrate_views_unique self (mw : Series L R) (mc : DataFrame L R)
    (views : list View) (acc : list (L * R)) :
is_unique (map fst acc ++ map view_id views) = true ->
calibrate_views self mw mc views acc =
(variances <- mapM (fun view => _confidence_to_variance self view mw mc) views ;;
 ret (acc ++ combine (map view_id views) variances)).
Proof.
revert acc. induction views as [| view rest IH]; intros acc Hu.
- cbn. unfold ret. rewrite app_nil_r. reflexivity.
- simpl. rewrite bind_assoc. apply bind_ext. intros var.
  rewrite dict_update_fresh by (eapply is_unique_app_cons; exact Hu).
  rewrite IH.
  + rewrite bind_assoc. apply bind_ext. intros vars.
    rewrite bind_ret_l. simpl. rewrite <- app_assoc. reflexivity.
  + rewrite map_app, <- app_assoc. exact Hu.
Qed.

Lemma combine_fst {A B} (l : list A) (l' : list B) :
length l' = length l -> map fst (combine l l') = l.
Proof.
revert l'. induction l as [| a l IH]; intros [| b l'] Hlen; simpl in *;
  try discriminate; [reflexivity |]. f_equal. apply IH. lia.
Qed.

Lemma combine_snd {A B} (l : list A) (l' : list B) :
length l' = length l -> map snd (combine l l') = l'.
Proof.
revert l'. induction l as [| a l IH]; intros [| b l'] Hlen; simpl in *;
  try discriminate; [reflexivity |]. f_equal. apply IH. lia.
Qed.

(** *** [np.diag] *)

Lemma np_diag_shape (v : list R) :
has_shape (length v) (length v) (np_diag v) = true.
Proof.
unfold has_shape, np_diag. rewrite length_map, length_seq, Nat.eqb_refl. simpl.
apply forallb_forall. intros row Hrow. apply in_map_iff in Hrow as (i & <- & _).
rewrite length_map, length_seq. apply Nat.eqb_refl.
Qed.

Lemma np_diag_entry (v : list R) (i j : nat) :
i < length v -> j < length v ->
nth j (nth i (np_diag v) []) nan = if Nat.eqb i j then nth i v nan else zero.
Proof.
intros Hi Hj. unfold np_diag.
rewrite (nth_indep _ [] (map (fun j0 => if Nat.eqb 0 j0 then nth 0 v nan else zero)
                             (seq 0 (length v))))
  by (rewrite length_map, length_seq; exact Hi).
rewrite (map_nth (fun i0 => map (fun j0 => if Nat.eqb i0 j0 then nth i0 v nan else zero)
                                (seq 0 (length v))) (seq 0 (length v)) 0 i).
rewrite seq_nth by exact Hi. simpl.
rewrite (nth_indep _ nan (if Nat.eqb i 0 then nth i v nan else zero))
  by (rewrite length_map, length_seq; exact Hj).
rewrite (map_nth (fun j0 => if Nat.eqb i j0 then nth i v nan else zero)
                 (seq 0 (length v)) 0 j).
rewrite seq_nth by exact Hj. reflexivity.
Qed.

(** C7. For a collection whose view ids are pairwise different, the view
    covariance is the matrix with one row and one column per view, labelled
    by the view ids in the order of the views, holding the calibrated
    variance of each view on the diagonal and exactly zero elsewhere. *)
Theorem view_covariances_diagonal self (mw : Series L R) (mc : DataFrame L R)
        (vc : ViewCollection) :
  let views := get_all_views vc in
  let ids := map view_id views in
  let calibrate := fun view => _confidence_to_variance self view mw mc in
  is_unique ids = true ->
  get_view_covariances_from_confidences self mw mc vc =
    (variances <- mapM calibrate views ;; ret (diagonal_frame ids variances)) /\
  forall out variances,
    mapM calibrate views = (out, Ok variances) ->
    length variances = length views /\
    df_wf (diagonal_frame ids variances) = true /\
    forall i j, i < length views -> j < length views ->
      cell (diagonal_frame ids variances) i j =
      if Nat.eqb i j then nth i variances nan else zero.
Proof.
intros views ids calibrate Hu. split.
- unfold get_view_covariances_from_confidences. fold views.
  rewrite calibrate_views_unique by exact Hu. fold calibrate. fold ids.
  rewrite bind_assoc. apply bind_ext_on. intros out variances Hrun.
  apply mapM_length in Hrun. rewrite bind_ret_l. simpl app.
  assert (Hlen : length variances = length ids)
    by (unfold ids; rewrite length_map; exact Hrun).
  unfold series_of_dict. simpl s_values. simpl s_index.
  rewrite (combine_fst _ _ Hlen), (combine_snd _ _ Hlen).
  unfold pd_DataFrame. rewrite <- Hlen, np_diag_shape. reflexivity.
- intros out variances Hrun. apply mapM_length in Hrun.
  split; [exact Hrun |]. split.
  + unfold df_wf, diagonal_frame. simpl. unfold ids.
    rewrite length_map, <- Hrun. apply np_diag_shape.
  + intros i j Hi Hj. unfold cell, diagonal_frame. simpl.
    apply np_diag_entry; rewrite Hrun; assumption.
Qed.

(** *** Target weights *)

Lemma interpolate_pandas (c : R) (market full : list R) :
  map2 nadd market (map (fun x => nmul c x) (map2 nsub full market)) =
  interpolate c market full.
Proof.
unfold interpolate. revert full.
induction market as [| m market IH]; intros [| f full]; simpl; try reflexivity.
rewrite IH. reflexivity.
Qed.

(** C4. Whenever the solve at full confidence returns weights labelled as
    the market weights are, the target of the calibration is, entry by
    entry, market + confidence x (full_confidence - market), under the
    labels of the market weights. *)
Theorem view_target_weights_interpolation self view (mw : Series L R)
        (mc P : DataFrame L R) (Q full_confidence_weights : Series L R)
        (out : list string) :
  _get_weights self mw mc P (single_cell (view_id view) zero) Q
    = (out, Ok full_confidence_weights) ->
  s_index full_confidence_weights = s_index mw ->
  exists target_weights,
    _get_view_target_weights self view mw mc P Q = (out, Ok target_weights) /\
    s_index target_weights = s_index mw /\
    s_values target_weights =
      interpolate (view_confidence view) (s_values mw)
                  (s_values full_confidence_weights).
Proof.
intros Hfull Hindex. unfold _get_view_target_weights. rewrite Hfull.
unfold bind, lift, series_sub, series_add.
rewrite series_arith_aligned by exact Hindex. unfold bindR.
rewrite series_arith_aligned by (simpl; symmetry; exact Hindex).
simpl. rewrite app_nil_r, interpolate_pandas.
eexists. split; [reflexivity |]. split; reflexivity.
Qed.

(** C3. The calibration of a view of the collection obtains its
    full-confidence weights from one call of the weight solver, on the row
    of that view alone, its own out-performance entry and a 1x1 view
    covariance whose entry is zero; nothing else of the collection enters
    the call. *)
Theorem calibration_isolates_view self (vc : ViewCollection) view
        (mw : Series L R) (mc : DataFrame L R) :
  let view_matrix := get_view_data_frame view (universe self) in
  let view_out_performance :=
    single_entry (view_id view) (view_out_performance view) in
  let zero_view_cov :=
    {| df_index := [view_id view]; df_columns := [view_id view];
       df_values := [[zero]] |} in
  In view (get_all_views vc) ->
  _confidence_to_variance self view mw mc =
    (full_confidence_weights <-
       _get_weights self mw mc view_matrix zero_view_cov view_out_performance ;;
     target_weights <-
       lift (difference <-- series_sub full_confidence_weights mw ;;
             series_add mw (series_scale (view_confidence view) difference)) ;;
     variance <-
       optimize_minimize
         (_error_vs_target_weights self view mw mc view_matrix
                                   view_out_performance target_weights)
         initial_guess ;;
     first_component variance) /\
  s_index view_out_performance = [view_id view] /\
  length (s_values view_out_performance) = 1.
Proof.
intros view_matrix q zero_view_cov _. split; [| split; reflexivity].
unfold _confidence_to_variance, _get_view_target_weights.
fold view_matrix. fold q. rewrite bind_assoc. reflexivity.
Qed.

(** C8 (as the code has it). The calibration hands back the first
    component of the final iterate of the minimizer whenever the minimizer
    returns one, without looking at its success flag or at the value. *)
Theorem confidence_to_variance_final_iterate self view (mw : Series L R)
        (mc : DataFrame L R) (target_weights : Series L R)
        (out1 out2 : list string) (outcome : OptimizeResult R)
        (x : R) (others : list R) :
  let view_matrix := get_view_data_frame view (universe self) in
  let view_out_performance :=
    single_entry (view_id view) (view_out_performance view) in
  _get_view_target_weights self view mw mc view_matrix view_out_performance
    = (out1, Ok target_weights) ->
  optimize_minimize
    (_error_vs_target_weights self view mw mc view_matrix view_out_performance
                              target_weights)
    initial_guess = (out2, Ok outcome) ->
  opt_x outcome = x :: others ->
  _confidence_to_variance self view mw mc = (out1 ++ out2, Ok x).
Proof.
intros view_matrix q Htarget Hmin Hx. unfold _confidence_to_variance.
fold view_matrix. fold q. rewrite Htarget. unfold bind at 1.
rewrite Hmin. unfold bind, first_component. rewrite Hx. simpl.
rewrite app_nil_r. reflexivity.
Qed.

End CalibrationFacts.

(** *** The calibration on the scenario of the specification *)

Lemma view_covariances_diagonal_witness :
  let vc := [Reference.view_1; Reference.view_2] in
  let mw := Reference.market_weights in
  let mc := Reference.market_cov in
  is_unique (map view_id (get_all_views vc)) = true /\
  @get_view_covariances_from_confidences _ _ _ _ Reference.reference_Imports
     _ _ _ Reference.engine mw mc vc =
  (variances <-
     mapM (fun view =>
             @_confidence_to_variance _ _ _ _ Reference.reference_Imports
                _ _ _ Reference.engine view mw mc) vc ;;
   ret (diagonal_frame ["v1"; "v2"] variances)).
Proof.
intros vc mw mc. split; [reflexivity |].
exact (proj1 (@view_covariances_diagonal _ _ _ _ Reference.reference_Imports
                _ _ _ Reference.engine mw mc vc eq_refl)).
Defined.

Lemma view_target_weights_interpolation_witness :
  let P := get_view_data_frame Reference.view_1 Reference.assets in
  let Q := single_entry "v1" 0.03%float in
  exists target_weights,
    @_get_view_target_weights _ _ _ _ Reference.reference_Imports _ _ _
       Reference.engine Reference.view_1 Reference.market_weights
       Reference.market_cov P Q = ([], Ok target_weights) /\
    s_index target_weights = ["A"; "B"] /\
    s_values target_weights =
      interpolate 0.5%float [0.6; 0.4]%float
                  [0.83636363636363642; 0.16363636363636361]%float.
Proof.
intros P Q.
exact (@view_target_weights_interpolation _ _ _ _ Reference.reference_Imports
         _ _ _ Reference.engine Reference.view_1 Reference.market_weights
         Reference.market_cov P Q
         {| s_index := ["A"; "B"];
            s_values := [0.83636363636363642; 0.16363636363636361]%float;
            s_name := None |} [] eq_refl eq_refl).
Defined.

Lemma calibration_isolates_view_witness :
  let vc := [Reference.view_1; Reference.view_2] in
  In Reference.view_1 (get_all_views vc) /\
  s_index (single_entry (view_id Reference.view_1)
                        (view_out_performance Reference.view_1)) = ["v1"].
Proof.
intros vc. split; [left; reflexivity |].
exact (proj1 (proj2
  (@calibration_isolates_view _ _ _ _ Reference.reference_Imports _ _ _
     Reference.engine vc Reference.view_1 Reference.market_weights
     Reference.market_cov (or_introl eq_refl)))).
Defined.

(** A minimizer that reports failure and a negative iterate: the value is
    taken as the variance of the view all the same. *)
Lemma confidence_to_variance_final_iterate_witness :
  @_confidence_to_variance _ _ _ _ Reference.failing_Imports _ _ _
     Reference.engine Reference.view_1 Reference.market_weights
     Reference.market_cov = ([] ++ [], Ok (-1)%float).
Proof.
exact (@confidence_to_variance_final_iterate _ _ _ _ Reference.failing_Imports
         _ _ _ Reference.engine Reference.view_1 Reference.market_weights
         Reference.market_cov
         {| s_index := ["A"; "B"];
            s_values := [0.71818181818181825; 0.2818181818181818]%float;
            s_name := None |}
         [] [] {| opt_x := [(-1)%float]; opt_success := false |}
         (-1)%float [] eq_refl eq_refl eq_refl).
Defined.

(** C8, refuted as stated.  The minimizer reports failure and hands back
    the negative iterate -1; the calibration raises nothing and returns -1,
    and the blended weights are computed from it. *)
Lemma calibration_failure_goes_unreported :
  let outcome := {| opt_x := [(-1)%float]; opt_success := false |} in
  let calibrated :=
    @_confidence_to_variance _ _ _ _ Reference.failing_Imports _ _ _
       Reference.engine Reference.view_1 Reference.market_weights
       Reference.market_cov in
  let blended :=
    @get_black_litterman_weights _ _ _ _ Reference.failing_Imports _ _ _
       Reference.engine [Reference.view_1] "2019-01-01" "2019-12-31" in
  (forall f x0,
     @optimize_minimize _ Reference.failing_Imports f x0 = ([], Ok outcome)) /\
  opt_success outcome = false /\
  PrimFloat.ltb (-1)%float 0%float = true /\
  calibrated = ([], Ok (-1)%float) /\
  ~ (is_raise calibrated = true) /\
  ~ (is_raise blended = true).
Proof.
intros outcome calibrated blended.
repeat split; try reflexivity; vm_compute; discriminate.
Defined.

(** The concrete scenario of the specification: the calibration of
    "A outperforms B by 3%" at confidence 0.5 settles on a positive
    variance, and the blended weights move from (0.6, 0.4) towards A. *)
Example scenario_two_assets :
  @_confidence_to_variance _ _ _ _ Reference.reference_Imports _ _ _
     Reference.engine Reference.view_1 Reference.market_weights
     Reference.market_cov = ([], Ok 0.0054999999999999971%float) /\
  @get_black_litterman_weights _ _ _ _ Reference.reference_Imports _ _ _
     Reference.engine [Reference.view_1] "2019-01-01" "2019-12-31" =
  ([], Ok {| s_index := ["A"; "B"];
             s_values := [0.71818181818181825; 0.2818181818181818]%float;
             s_name := Some "black_litterman" |}) /\
  PrimFloat.ltb 0.6%float 0.71818181818181825%float = true /\
  PrimFloat.ltb 0.2818181818181818%float 0.4%float = true.
Proof. repeat split; vm_compute; reflexivity. Qed.

(** Solving for the first of two views alone is not solving for the
    whole collection with a zero view covariance: the two readings of
    "full confidence" give different weights. *)
Example isolated_solve_differs_from_joint_solve :
  let vc := [Reference.view_1; Reference.view_2] in
  let joint :=
    @_get_weights _ _ _ _ Reference.reference_Imports Reference.engine
       Reference.market_weights Reference.market_cov
       (get_view_matrix vc Reference.assets)
       {| df_index := ["v1"; "v2"]; df_columns := ["v1"; "v2"];
          df_values := [[0; 0]; [0; 0]]%float |}
       (get_view_out_performances vc) in
  let isolated :=
    @_get_weights _ _ _ _ Reference.reference_Imports Reference.engine
       Reference.market_weights Reference.market_cov
       (get_view_data_frame Reference.view_1 Reference.assets)
       (single_cell "v1" 0%float) (single_entry "v1" 0.03%float) in
  joint <> isolated.
Proof. vm_compute. intros Heq. inversion Heq. Qed.

(** Why the ids have to differ: two views filed under one id share one
    entry of the dict, and the view covariance has a single row. *)
Example repeated_id_collapses :
  @get_view_covariances_from_confidences _ _ _ _ Reference.reference_Imports
     _ _ _ Reference.engine Reference.market_weights Reference.market_cov
     [Reference.view_1; Reference.view_1_again] =
  ([], Ok {| df_index := ["v1"]; df_columns := ["v1"];
             df_values := [[0.013500000000000003]]%float |}).
Proof. vm_compute. reflexivity. Qed.

(** ** The engine facade *)

Section FacadeFacts.
Context {L : Type} `{Label L} {R : Type} `{Num R} `{Imports R}.
Context {View ViewCollection : Type} `{Views L R View ViewCollection}.

Implicit Types (self : @BLEngine L R).

(** No view, no variance: Omega is the empty frame. *)
Lemma view_covariances_no_view self (mw : Series L R) (mc : DataFrame L R)
      (vc : ViewCollection) :
  get_all_views vc = [] ->
  get_view_covariances_from_confidences self mw mc vc =
  ([], Ok {| df_index := []; df_columns := []; df_values := [] |}).
Proof.
intros Hviews. unfold get_view_covariances_from_confidences.
rewrite Hviews. reflexivity.
Qed.

(** Adding the zero vector that an empty blending term leaves. *)
Lemma add_zeros (w : list R) (start : nat) :
  Forall (fun x => nadd x zero = x) w ->
  map2 nadd w (map (fun _ => zero) (seq start (length w))) = w.
Proof.
revert start. induction w as [| x w IH]; intros start Hw; [reflexivity |].
inversion Hw as [| ? ? Hx Hrest]; subst. simpl.
rewrite Hx, IH by exact Hrest. reflexivity.
Qed.

Lemma posterior_weights_no_view (ra : R) (w : list R) (S : list (list R))
      (Q : list R) :
  Forall (fun x => nadd x zero = x) w ->
  posterior_weights ra (length w) 0 w S [] [] Q = w.
Proof.
intros Hw. unfold posterior_weights, mat_vec, mat_mul, transpose.
rewrite !map_map. simpl. unfold inner. simpl.
apply add_zeros. exact Hw.
Qed.

(** C2. With a collection that has no view -- a view matrix without rows
    over the asset universe, no out-performance entry -- and market data
    labelled by the asset universe, the blended weights are the market
    weights: same labels, same values, under the Black-Litterman name.
    ([numpy.linalg.inv] maps the empty matrix to itself; the weights are
    numbers that adding zero leaves unchanged.) *)
Theorem zero_view_identity self (vc : ViewCollection) (start_date end_date : string)
        (mw : Series L R) (mc : DataFrame L R) (out1 out2 : list string) :
  get_all_views vc = [] ->
  get_view_matrix vc (universe self) =
    {| df_index := []; df_columns := universe self; df_values := [] |} ->
  s_index (get_view_out_performances vc) = [] ->
  mde_get_market_weights (_market_data_engine self) end_date = (out1, Ok mw) ->
  mde_get_annualised_cov_matrix (_market_data_engine self) start_date end_date
    = (out2, Ok mc) ->
  series_wf mw = true ->
  s_index mw = universe self ->
  df_index mc = universe self ->
  df_columns mc = universe self ->
  np_linalg_inv [] = Some [] ->
  Forall (fun x => nadd x zero = x) (s_values mw) ->
  get_black_litterman_weights self vc start_date end_date =
  (out1 ++ out2,
   Ok {| s_index := s_index mw;
         s_values := s_values mw;
         s_name := Some Weights_BLACK_LITTERMAN |}).
Proof.
intros Hviews Hmatrix Hq Hmw Hmc Hwf Hwi Hci Hcc Hinv Hzero.
unfold get_black_litterman_weights.
rewrite Hmw. unfold bind at 1. rewrite Hmc. unfold bind at 1.
rewrite (view_covariances_no_view self mw mc vc Hviews), bind_pure, Hmatrix.
rewrite (@get_weights_aligned _ _ _ _ _ self mw mc _ _ _ (universe self) [] []);
  try (simpl; congruence); try reflexivity;
  try (unfold precision_matrix; simpl; exact Hinv).
rewrite bind_pure. unfold ret, series_rename. simpl.
apply Nat.eqb_eq in Hwf. rewrite <- Hwi, <- Hwf.
rewrite posterior_weights_no_view by exact Hzero.
rewrite !app_nil_r. reflexivity.
Qed.

(** C9. Without an end date the market weights are asked of the
    market-data engine at the calculation date of the settings; a given
    end date is handed on as it is. *)
Theorem get_market_weights_end_date self :
  get_market_weights self None =
    (weights <- mde_get_market_weights (_market_data_engine self)
                                       (calculation_date (_calc_settings self)) ;;
     ret (series_rename weights Weights_MARKET)) /\
  forall end_date : string,
    get_market_weights self (Some end_date) =
      (weights <- mde_get_market_weights (_market_data_engine self) end_date ;;
       ret (series_rename weights Weights_MARKET)).
Proof. split; [| intros end_date]; reflexivity. Qed.

(** C10. A vector that [get_market_weights] returns is the vector of the
    market-data engine under the name [Weights.MARKET]; a vector that
    [get_black_litterman_weights] returns is an output of the weight solver
    under the name [Weights.BLACK_LITTERMAN].  Labels and values are those
    that were computed. *)
Theorem facade_results_are_named self :
  (forall (end_date : option string) out weights,
     get_market_weights self end_date = (out, Ok weights) ->
     s_name weights = Some Weights_MARKET /\
     exists date computed,
       mde_get_market_weights (_market_data_engine self) date = (out, Ok computed) /\
       s_index weights = s_index computed /\
       s_values weights = s_values computed) /\
  (forall (vc : ViewCollection) (start_date end_date : string) out weights,
     get_black_litterman_weights self vc start_date end_date = (out, Ok weights) ->
     s_name weights = Some Weights_BLACK_LITTERMAN /\
     exists mw mc view_cov out' computed,
       _get_weights self mw mc (get_view_matrix vc (universe self)) view_cov
                    (get_view_out_performances vc) = (out', Ok computed) /\
       s_index weights = s_index computed /\
       s_values weights = s_values computed).
Proof.
split.
- intros end_date out weights Hcall. unfold get_market_weights in Hcall.
  apply bind_ok_inv in Hcall as (o1 & computed & o2 & Hmde & Hret & ->).
  inversion Hret; subst. split; [reflexivity |].
  exists (match end_date with
          | None => calculation_date (_calc_settings self)
          | Some d => d
          end), computed.
  rewrite app_nil_r. auto.
- intros vc start_date end_date out weights Hcall.
  unfold get_black_litterman_weights in Hcall.
  apply bind_ok_inv in Hcall as (o1 & mw & o2 & _ & Hcall & _).
  apply bind_ok_inv in Hcall as (o3 & mc & o4 & _ & Hcall & _).
  apply bind_ok_inv in Hcall as (o5 & view_cov & o6 & _ & Hcall & _).
  apply bind_ok_inv in Hcall as (o7 & computed & o8 & Hsolve & Hret & _).
  inversion Hret; subst. split; [reflexivity |].
  exists mw, mc, view_cov, o7, computed. auto.
Qed.

End FacadeFacts.

(** *** The facade on the scenario of the specification *)

Lemma zero_view_identity_witness :
  @get_black_litterman_weights _ _ _ _ Reference.reference_Imports _ _ _
     Reference.engine [] "2019-01-01" "2019-12-31" =
  ([] ++ [],
   Ok {| s_index := ["A"; "B"];
         s_values := [0.6; 0.4]%float;
         s_name := Some "black_litterman" |}).
Proof.
refine (@zero_view_identity _ _ _ _ Reference.reference_Imports _ _ _
          Reference.engine [] "2019-01-01" "2019-12-31"
          Reference.market_weights Reference.market_cov [] []
          eq_refl eq_refl eq_refl eq_refl eq_refl eq_refl eq_refl eq_refl
          eq_refl eq_refl _).
repeat constructor.
Defined.

Lemma facade_results_are_named_witness :
  s_name {| s_index := ["A"; "B"];
            s_values := [0.71818181818181825; 0.2818181818181818]%float;
            s_name := Some "black_litterman" |}
  = Some (@Weights_BLACK_LITTERMAN _ Reference.reference_Imports) /\
  s_name {| s_index := ["A"; "B"];
            s_values := [0.6; 0.4]%float;
            s_name := Some "market" |}
  = Some (@Weights_MARKET _ Reference.reference_Imports).
Proof.
destruct (@facade_results_are_named _ _ _ _ Reference.reference_Imports _ _ _
            Reference.engine) as [Hmarket Hblended].
split.
- exact (proj1 (Hblended [Reference.view_1] "2019-01-01" "2019-12-31" [] _ eq_refl)).
- exact (proj1 (Hmarket None [] _ eq_refl)).
Defined.

(** ** Settings from a configuration mapping *)

Section ConfigurationFacts.
Context {R : Type} `{Num R} `{ConfigurationKeys}.

Lemma getitem_ok {V} (d : list (string * V)) (key : string) (v : V) :
  getitem d key = Ok v <-> dict_get key d = Some v.
Proof.
unfold getitem. destruct (dict_get key d); split; intros Heq;
  inversion Heq; reflexivity.
Qed.

Lemma subscript_ok (value : json R) (key : string) (v : json R) :
  subscript value key = Ok v <->
  exists fields, value = JObject fields /\ dict_get key fields = Some v.
Proof.
split.
- destruct value; simpl; try discriminate.
  intros Hget. apply getitem_ok in Hget. eauto.
- intros (fields & -> & Hget). simpl. apply getitem_ok. exact Hget.
Qed.

Lemma parse_from_config_of_lookups (config params data : list (string * json R))
      (t ra fd ld au : json R) :
  dict_get PARAMETERS config = Some (JObject params) ->
  dict_get MARKET_DATA config = Some (JObject data) ->
  dict_get TAU params = Some t ->
  dict_get RISK_AVERSION params = Some ra ->
  dict_get FIRST_DATE data = Some fd ->
  dict_get LAST_DATE data = Some ld ->
  dict_get ASSET_UNIVERSE data = Some au ->
  parse_from_config config =
  Ok {| obj_tau := t; obj_risk_aversion := ra; obj_start_date := fd;
        obj_calculation_date := ld; obj_asset_universe := au |}.
Proof.
intros Hp Hd Ht Hra Hfd Hld Hau.
unfold parse_from_config, getitem. rewrite Hp, Hd. simpl.
unfold getitem. rewrite Ht, Hra, Hfd, Hld, Hau. reflexivity.
Qed.

Lemma dict_get_here {V} (key : string) (v : V) (d : list (string * V)) :
  dict_get key ((key, v) :: d) = Some v.
Proof. simpl. rewrite String.eqb_refl. reflexivity. Qed.

Lemma dict_get_later {V} (key other : string) (v : V) (d : list (string * V)) :
  other <> key -> dict_get key ((other, v) :: d) = dict_get key d.
Proof. intros Hne. simpl. apply String.eqb_neq in Hne. rewrite Hne. reflexivity. Qed.

(** Parsing succeeds exactly when the two sections are dicts that hold the
    five keys, and then stores what it found there as it is: no value is
    inspected, converted or checked (a negative tau, a string for a
    number, are stored like anything else); keys beyond the seven are
    ignored. *)
Theorem parse_from_config_succeeds_iff (config : list (string * json R))
        (parsed : CalculationSettingsObject R) :
  parse_from_config config = Ok parsed <->
  exists params data,
    dict_get PARAMETERS config = Some (JObject params) /\
    dict_get MARKET_DATA config = Some (JObject data) /\
    dict_get TAU params = Some (obj_tau parsed) /\
    dict_get RISK_AVERSION params = Some (obj_risk_aversion parsed) /\
    dict_get FIRST_DATE data = Some (obj_start_date parsed) /\
    dict_get LAST_DATE data = Some (obj_calculation_date parsed) /\
    dict_get ASSET_UNIVERSE data = Some (obj_asset_universe parsed).
Proof.
split.
- unfold parse_from_config.
  destruct (getitem config PARAMETERS) as [cp |] eqn:Ecp; simpl; [| discriminate].
  destruct (getitem config MARKET_DATA) as [cd |] eqn:Ecd; simpl; [| discriminate].
  destruct (subscript cp TAU) as [t |] eqn:Et; simpl; [| discriminate].
  destruct (subscript cp RISK_AVERSION) as [ra |] eqn:Era; simpl; [| discriminate].
  destruct (subscript cd FIRST_DATE) as [fd |] eqn:Efd; simpl; [| discriminate].
  destruct (subscript cd LAST_DATE) as [ld |] eqn:Eld; simpl; [| discriminate].
  destruct (subscript cd ASSET_UNIVERSE) as [au |] eqn:Eau; simpl; [| discriminate].
  intros Heq. inversion Heq; subst; simpl.
  apply getitem_ok in Ecp, Ecd.
  apply subscript_ok in Et as (params & -> & Ht).
  apply subscript_ok in Era as (params' & Hp & Hra). inversion Hp; subst params'.
  apply subscript_ok in Efd as (data & -> & Hfd).
  apply subscript_ok in Eld as (data' & Hd & Hld). inversion Hd; subst data'.
  apply subscript_ok in Eau as (data' & Hd' & Hau). inversion Hd'; subst data'.
  exists params, data. repeat split; assumption.
- intros (params & data & Hp & Hd & Ht & Hra & Hfd & Hld & Hau).
  rewrite (parse_from_config_of_lookups _ Hp Hd Ht Hra Hfd Hld Hau).
  destruct parsed; reflexivity.
Qed.

(** Whatever goes wrong in parsing is a missing key ([KeyError]) or a
    section that is not a dict ([TypeError]); without the parameters
    section it is a [KeyError], and so it is with a parameters entry of
    any kind but without the market-data section, whatever else the
    mapping holds: both sections are looked up before either is read. *)
Theorem parse_from_config_errors (config : list (string * json R)) :
  (forall e, parse_from_config config = Raise e -> e = KeyError \/ e = TypeError) /\
  (dict_get PARAMETERS config = None -> parse_from_config config = Raise KeyError) /\
  (forall value : json R,
      dict_get PARAMETERS config = Some value ->
      dict_get MARKET_DATA config = None ->
      parse_from_config config = Raise KeyError).
Proof.
assert (Hget : forall V (d : list (string * V)) key e,
           getitem d key = Raise e -> e = KeyError).
{ intros V d key e. unfold getitem. destruct (dict_get key d); intros Heq;
    inversion Heq; reflexivity. }
assert (Hsub : forall (value : json R) key e,
           subscript value key = Raise e -> e = KeyError \/ e = TypeError).
{ intros value key e. destruct value; simpl; intros Heq;
    try (inversion Heq; right; reflexivity).
  left. eapply Hget; eauto. }
split; [| split].
- intros e. unfold parse_from_config.
  destruct (getitem config PARAMETERS) as [cp |] eqn:Ecp; simpl;
    [| intros Heq; inversion Heq; subst; left; eapply Hget; eauto].
  destruct (getitem config MARKET_DATA) as [cd |] eqn:Ecd; simpl;
    [| intros Heq; inversion Heq; subst; left; eapply Hget; eauto].
  destruct (subscript cp TAU) eqn:E1; simpl;
    [| intros Heq; inversion Heq; subst; eapply Hsub; eauto].
  destruct (subscript cp RISK_AVERSION) eqn:E2; simpl;
    [| intros Heq; inversion Heq; subst; eapply Hsub; eauto].
  destruct (subscript cd FIRST_DATE) eqn:E3; simpl;
    [| intros Heq; inversion Heq; subst; eapply Hsub; eauto].
  destruct (subscript cd LAST_DATE) eqn:E4; simpl;
    [| intros Heq; inversion Heq; subst; eapply Hsub; eauto].
  destruct (subscript cd ASSET_UNIVERSE) eqn:E5; simpl;
    [| intros Heq; inversion Heq; subst; eapply Hsub; eauto].
  discriminate.
- intros Hmissing. unfold parse_from_config, getitem. rewrite Hmissing. reflexivity.
- intros value Hp Hmissing. unfold parse_from_config, getitem.
  rewrite Hp, Hmissing. reflexivity.
Qed.

Lemma as_str_dict_of_strings (d : list (string * string)) :
  as_str_dict (map (fun kv => (fst kv, @JString R (snd kv))) d) = Some d.
Proof.
induction d as [| [k s] d IH]; simpl; [reflexivity |].
rewrite IH. reflexivity.
Qed.

(** Writing settings under the keys and parsing them back gives the same
    settings, provided the keys of a section are different strings. *)
Theorem parse_from_config_round_trip (st : @CalculationSettings string R) :
  PARAMETERS <> MARKET_DATA ->
  TAU <> RISK_AVERSION ->
  FIRST_DATE <> LAST_DATE ->
  FIRST_DATE <> ASSET_UNIVERSE ->
  LAST_DATE <> ASSET_UNIVERSE ->
  exists parsed,
    parse_from_config (config_of_settings st) = Ok parsed /\
    settings_of_object parsed = Some st.
Proof.
intros Hsec Hparams Hdates Hfirst Hlast.
eexists. split.
- apply parse_from_config_of_lookups
    with (params := [(TAU, JNumber (tau st));
                     (RISK_AVERSION, JNumber (risk_aversion st))])
         (data := [(FIRST_DATE, JString (start_date st));
                   (LAST_DATE, JString (calculation_date st));
                   (ASSET_UNIVERSE,
                    JObject (map (fun kv => (fst kv, JString (snd kv)))
                                 (asset_universe st)))]);
    unfold config_of_settings;
    repeat first [ apply dict_get_here
                 | rewrite dict_get_later by assumption ].
- unfold settings_of_object. simpl. rewrite as_str_dict_of_strings.
  destruct st; reflexivity.
Qed.

End ConfigurationFacts.

Lemma parse_from_config_round_trip_witness :
  exists parsed,
    @parse_from_config _ reference_keys
       (@config_of_settings _ reference_keys Reference.settings) = Ok parsed /\
    settings_of_object parsed = Some Reference.settings.
Proof.
apply (@parse_from_config_round_trip _ reference_keys Reference.settings);
  discriminate.
Defined.

(** A configuration with a negative tau and a number where the first date
    should be is parsed like any other. *)
Example parse_from_config_unchecked :
  @parse_from_config _ reference_keys
    [("market_data", JObject [("asset_universe", JNull);
                              ("last_date", JString "2019-12-31");
                              ("first_date", JNumber 7%float)]);
     ("comment", JString "draft");
     ("parameters", JObject [("risk_aversion", JNumber 2.5%float);
                             ("tau", JNumber (-1)%float)])]
  = Ok {| obj_tau := JNumber (-1)%float;
          obj_risk_aversion := JNumber 2.5%float;
          obj_start_date := JNumber 7%float;
          obj_calculation_date := JString "2019-12-31";
          obj_asset_universe := JNull |}.
Proof. reflexivity. Qed.

(** ** Construction of the engine *)

Section ConstructionFacts.
Context {L R : Type}.

(** The constructor asks the reader once, for the window from the start
    date to the calculation date of the settings; it fails exactly when
    the reader does, with the reader's output and error, and otherwise
    the engine reports the dates and the assets of the settings it was
    given. *)
Theorem engine_construction (data_reader : @BaseDataReader L R)
        (calc_settings : @CalculationSettings L R) :
  let asked := get_market_data_engine data_reader (start_date calc_settings)
                                      (calculation_date calc_settings) in
  (forall out e, asked = (out, Raise e) ->
     BLEngine_init data_reader calc_settings = (out, Raise e)) /\
  (forall out market_data, asked = (out, Ok market_data) ->
     exists self,
       BLEngine_init data_reader calc_settings = (out, Ok self) /\
       _market_data_engine self = market_data /\
       get_dates self = (start_date calc_settings, calculation_date calc_settings) /\
       get_asset_universe self = map fst (asset_universe calc_settings)).
Proof.
intros asked. unfold BLEngine_init. fold asked. split.
- intros out e Hasked. rewrite Hasked. reflexivity.
- intros out market_data Hasked. rewrite Hasked. simpl. rewrite app_nil_r.
  eexists. split; [reflexivity |]. repeat split.
Qed.

End ConstructionFacts.

Lemma engine_construction_witness :
  (exists self,
     BLEngine_init reference_reader Reference.settings = ([], Ok self) /\
     get_dates self = ("2019-01-01", "2019-12-31") /\
     get_asset_universe self = ["A"; "B"]) /\
  BLEngine_init failing_reader Reference.settings
  = ([], Raise (OtherError "FileNotFoundError")).
Proof.
destruct (engine_construction reference_reader Reference.settings) as [_ Hok].
destruct (engine_construction failing_reader Reference.settings) as [Hfail _].
split.
- destruct (Hok [] Reference.market_data eq_refl)
    as (self & Hinit & _ & Hdates & Hassets).
  exists self. repeat split; assumption.
- exact (Hfail [] _ eq_refl).
Defined.

(** ** How a call of the weight solver can end *)

Section SolverOutcomes.
Context {L : Type} `{Label L} {R : Type} `{Num R} `{Imports R}.

Implicit Types (self : @BLEngine L R).

Lemma bindR_raise_inv {A B} (c : result A) (k : A -> result B) (e : exn) :
  bindR c k = Raise e ->
  c = Raise e \/ exists a, c = Ok a /\ k a = Raise e.
Proof.
destruct c as [a | e']; simpl; intros Heq; [right; eauto |].
left. inversion Heq. reflexivity.
Qed.

Lemma bindR_ok_inv {A B} (c : result A) (k : A -> result B) (b : B) :
  bindR c k = Ok b -> exists a, c = Ok a /\ k a = Ok b.
Proof. destruct c as [a | e]; simpl; intros Heq; [eauto | discriminate]. Qed.

(** The pandas operations of the model raise nothing but [ValueError]. *)
Lemma get_indexer_raises (a b : list L) e :
  get_indexer a b = Raise e -> e = ValueError.
Proof.
unfold get_indexer. destruct (index_equals a b); [discriminate |].
destruct (is_unique a); [discriminate |]. intros Heq; inversion Heq; reflexivity.
Qed.

Lemma series_reindex_raises (s : Series L R) (t : list L) e :
  series_reindex s t = Raise e -> e = ValueError.
Proof.
unfold series_reindex. intros Hr. apply bindR_raise_inv in Hr as [Hr | (ix & _ & Hr)].
- eapply get_indexer_raises; eauto.
- destruct ix; discriminate.
Qed.

Lemma df_reindex_rows_raises (d : DataFrame L R) (t : list L) e :
  df_reindex_rows d t = Raise e -> e = ValueError.
Proof.
unfold df_reindex_rows. intros Hr. apply bindR_raise_inv in Hr as [Hr | (ix & _ & Hr)].
- eapply get_indexer_raises; eauto.
- destruct ix; discriminate.
Qed.

Lemma df_reindex_columns_raises (d : DataFrame L R) (t : list L) e :
  df_reindex_columns d t = Raise e -> e = ValueError.
Proof.
unfold df_reindex_columns. intros Hr.
apply bindR_raise_inv in Hr as [Hr | (ix & _ & Hr)].
- eapply get_indexer_raises; eauto.
- destruct ix; discriminate.
Qed.

Lemma dot_common_raises (a b : list L) e :
  dot_common a b = Raise e -> e = ValueError.
Proof.
unfold dot_common.
destruct (_ || _); intros Heq; inversion Heq; reflexivity.
Qed.

Lemma df_dot_raises (a b : DataFrame L R) e :
  df_dot a b = Raise e -> e = ValueError.
Proof.
unfold df_dot. intros Hr.
apply bindR_raise_inv in Hr as [Hr | (c & _ & Hr)];
  [eapply dot_common_raises; eauto |].
apply bindR_raise_inv in Hr as [Hr | (l & _ & Hr)];
  [eapply df_reindex_columns_raises; eauto |].
apply bindR_raise_inv in Hr as [Hr | (r & _ & Hr)];
  [eapply df_reindex_rows_raises; eauto | discriminate].
Qed.

Lemma df_dot_series_raises (a : DataFrame L R) (s : Series L R) e :
  df_dot_series a s = Raise e -> e = ValueError.
Proof.
unfold df_dot_series. intros Hr.
apply bindR_raise_inv in Hr as [Hr | (c & _ & Hr)];
  [eapply dot_common_raises; eauto |].
apply bindR_raise_inv in Hr as [Hr | (l & _ & Hr)];
  [eapply df_reindex_columns_raises; eauto |].
apply bindR_raise_inv in Hr as [Hr | (r & _ & Hr)];
  [eapply series_reindex_raises; eauto | discriminate].
Qed.

Lemma df_add_raises (a b : DataFrame L R) e :
  df_add a b = Raise e -> e = ValueError.
Proof.
unfold df_add. destruct (_ && _); [discriminate |]. intros Hr.
apply bindR_raise_inv in Hr as [Hr | (a1 & _ & Hr)];
  [eapply df_reindex_rows_raises; eauto |].
apply bindR_raise_inv in Hr as [Hr | (a2 & _ & Hr)];
  [eapply df_reindex_columns_raises; eauto |].
apply bindR_raise_inv in Hr as [Hr | (b1 & _ & Hr)];
  [eapply df_reindex_rows_raises; eauto |].
apply bindR_raise_inv in Hr as [Hr | (b2 & _ & Hr)];
  [eapply df_reindex_columns_raises; eauto | discriminate].
Qed.

Lemma series_arith_raises (f : R -> R -> R) (a b : Series L R) e :
  series_arith f a b = Raise e -> e = ValueError.
Proof.
unfold series_arith. destruct (index_equals _ _); [discriminate |]. intros Hr.
apply bindR_raise_inv in Hr as [Hr | (a' & _ & Hr)];
  [eapply series_reindex_raises; eauto |].
apply bindR_raise_inv in Hr as [Hr | (b' & _ & Hr)];
  [eapply series_reindex_raises; eauto | discriminate].
Qed.

Lemma pd_DataFrame_raises (values : list (list R)) (index columns : list L) e :
  pd_DataFrame values index columns = Raise e -> e = ValueError.
Proof.
unfold pd_DataFrame. destruct (has_shape _ _ _); [discriminate |].
intros Heq; inversion Heq; reflexivity.
Qed.

Lemma mat_1_of_raises self (mc P Om : DataFrame L R) e :
  mat_1_of self mc P Om = Raise e -> e = ValueError.
Proof.
unfold mat_1_of. intros Hr.
apply bindR_raise_inv in Hr as [Hr | (pc & _ & Hr)];
  [eapply df_dot_raises; eauto |].
apply bindR_raise_inv in Hr as [Hr | (pcp & _ & Hr)];
  [eapply df_dot_raises; eauto | eapply df_add_raises; eauto].
Qed.

Lemma mat_2_of_raises self (mw : Series L R) (mc P : DataFrame L R)
      (Q : Series L R) e :
  mat_2_of self mw mc P Q = Raise e -> e = ValueError.
Proof.
unfold mat_2_of. intros Hr.
apply bindR_raise_inv in Hr as [Hr | (pc & _ & Hr)];
  [eapply df_dot_raises; eauto |].
apply bindR_raise_inv in Hr as [Hr | (pcw & _ & Hr)];
  [eapply df_dot_series_raises; eauto | eapply series_arith_raises; eauto].
Qed.

(** The last product and sum of [_get_weights]. *)
Lemma blend_raises (mw : Series L R) (P mat_1_inv : DataFrame L R)
      (mat_2 : Series L R) e :
  (pm <-- df_dot (df_T P) mat_1_inv ;;
   adj <-- df_dot_series pm mat_2 ;;
   series_add mw adj) = Raise e -> e = ValueError.
Proof.
intros Hr.
apply bindR_raise_inv in Hr as [Hr | (pm & _ & Hr)];
  [eapply df_dot_raises; eauto |].
apply bindR_raise_inv in Hr as [Hr | (adj & _ & Hr)];
  [eapply df_dot_series_raises; eauto | eapply series_arith_raises; eauto].
Qed.

(** A call of the weight solver ends in one of four ways: with weights,
    with the [LinAlgError] of the inversion, with a [ValueError] of
    pandas -- all three without output -- or, after printing
    "matrix not aligned?", with an [UnboundLocalError].  The last one
    happens exactly when the first block fails. *)
Theorem get_weights_outcomes self (mw : Series L R) (mc P Om : DataFrame L R)
        (Q : Series L R) :
  let outcome := _get_weights self mw mc P Om Q in
  ((exists w, outcome = ([], Ok w)) \/
   outcome = ([], Raise LinAlgError) \/
   outcome = ([], Raise ValueError) \/
   outcome = (["matrix not aligned?"], Raise UnboundLocalError)) /\
  (outcome = (["matrix not aligned?"], Raise UnboundLocalError) <->
   mat_1_of self mc P Om = Raise ValueError).
Proof.
intros outcome. subst outcome. unfold _get_weights.
destruct (mat_1_of self mc P Om) as [mat_1 | e] eqn:Hmat.
- assert (Hquiet :
    (exists w, (inverse <- match np_linalg_inv (df_values mat_1) with
                           | Some m => ret m
                           | None => raise LinAlgError
                           end ;;
                mat_1_inv <- lift (pd_DataFrame inverse (df_index mat_1)
                                                (df_index mat_1)) ;;
                mat_2 <- lift (mat_2_of self mw mc P Q) ;;
                lift (pm <-- df_dot (df_T P) mat_1_inv ;;
                      adj <-- df_dot_series pm mat_2 ;;
                      series_add mw adj)) = ([], Ok w)) \/
    (inverse <- match np_linalg_inv (df_values mat_1) with
                | Some m => ret m
                | None => raise LinAlgError
                end ;;
     mat_1_inv <- lift (pd_DataFrame inverse (df_index mat_1) (df_index mat_1)) ;;
     mat_2 <- lift (mat_2_of self mw mc P Q) ;;
     lift (pm <-- df_dot (df_T P) mat_1_inv ;;
           adj <-- df_dot_series pm mat_2 ;;
           series_add mw adj)) = ([], Raise LinAlgError) \/
    (inverse <- match np_linalg_inv (df_values mat_1) with
                | Some m => ret m
                | None => raise LinAlgError
                end ;;
     mat_1_inv <- lift (pd_DataFrame inverse (df_index mat_1) (df_index mat_1)) ;;
     mat_2 <- lift (mat_2_of self mw mc P Q) ;;
     lift (pm <-- df_dot (df_T P) mat_1_inv ;;
           adj <-- df_dot_series pm mat_2 ;;
           series_add mw adj)) = ([], Raise ValueError)).
  { destruct (np_linalg_inv (df_values mat_1)) as [inverse |];
      [| right; left; reflexivity].
    rewrite bind_ret_l.
    destruct (pd_DataFrame inverse (df_index mat_1) (df_index mat_1))
      as [mat_1_inv | e] eqn:Hframe.
    2:{ apply pd_DataFrame_raises in Hframe. subst. right; right; reflexivity. }
    rewrite bind_lift_ok.
    destruct (mat_2_of self mw mc P Q) as [mat_2 | e] eqn:Hm2.
    2:{ apply mat_2_of_raises in Hm2. subst. right; right; reflexivity. }
    rewrite bind_lift_ok.
    destruct (pm <-- df_dot (df_T P) mat_1_inv ;;
              adj <-- df_dot_series pm mat_2 ;;
              series_add mw adj) as [w | e] eqn:Hblend.
    - left. exists w. reflexivity.
    - apply blend_raises in Hblend. subst. right; right; reflexivity. }
  split.
  + destruct Hquiet as [Hq | [Hq | Hq]]; auto.
  + split; [| discriminate].
    destruct Hquiet as [[w Hq] | [Hq | Hq]]; rewrite Hq; discriminate.
- apply mat_1_of_raises in Hmat. subst e. split.
  + right; right; right. reflexivity.
  + split; reflexivity.
Qed.

End SolverOutcomes.

(** ** Labels that do not match *)

Section Misaligned.
Context {L : Type} `{Label L} {R : Type} `{Num R} `{Imports R}.

Implicit Types (self : @BLEngine L R).

Lemma index_mem_In (l : L) (a : list L) : index_mem l a = true <-> In l a.
Proof.
unfold index_mem. rewrite existsb_exists. split.
- intros (x & Hin & Heq). apply label_eqb_eq in Heq. subst. exact Hin.
- intros Hin. exists l. split; [exact Hin | apply label_eqb_refl].
Qed.

Lemma is_unique_NoDup (a : list L) : is_unique a = true -> NoDup a.
Proof.
induction a as [| x a IH]; simpl; intros Hu; [constructor |].
apply andb_true_iff in Hu as [Hx Hu]. constructor; [| auto].
intros Hin. apply index_mem_In in Hin. rewrite Hin in Hx. discriminate.
Qed.

Lemma In_dedup (x : L) (a : list L) : In x (dedup a) <-> In x a.
Proof.
induction a as [| y a IH]; simpl; [tauto |].
rewrite filter_In, IH. split.
- intros [Heq | [Hin _]]; auto.
- intros [Heq | Hin]; [left; exact Heq |].
  destruct (label_eqb y x) eqn:Eyx.
  + left. apply label_eqb_eq. exact Eyx.
  + right. split; [exact Hin | reflexivity].
Qed.

Lemma In_insert_sorted (x y : L) (a : list L) :
  In x (insert_sorted y a) <-> x = y \/ In x a.
Proof.
induction a as [| z a IH]; simpl; [intuition congruence |].
destruct (label_leb y z); simpl; [intuition congruence |].
rewrite IH. intuition congruence.
Qed.

Lemma In_sort_values (x : L) (a : list L) : In x (sort_values a) <-> In x a.
Proof.
unfold sort_values. induction a as [| y a IH]; simpl; [tauto |].
rewrite In_insert_sorted, IH. intuition congruence.
Qed.

Lemma insert_sorted_length (y : L) (a : list L) :
  length (insert_sorted y a) = S (length a).
Proof.
induction a as [| z a IH]; simpl; [reflexivity |].
destruct (label_leb y z); simpl; [reflexivity | rewrite IH; reflexivity].
Qed.

Lemma sort_values_length (a : list L) : length (sort_values a) = length a.
Proof.
unfold sort_values. induction a as [| y a IH]; simpl; [reflexivity |].
rewrite insert_sorted_length, IH. reflexivity.
Qed.

(** A label of either operand is a label of their union. *)
Lemma In_index_union (x : L) (a b : list L) :
  In x a \/ In x b -> In x (index_union a b).
Proof.
unfold index_union. destruct b as [| y b]; [intros [Hin | []]; exact Hin |].
destruct (index_equals a (y :: b)) eqn:Eab.
- apply index_equals_eq in Eab. subst a. tauto.
- destruct a as [| z a]; [intros [[] | Hin]; exact Hin |].
  intros Hin. apply In_sort_values, In_dedup, in_app_iff. exact Hin.
Qed.

(** When an axis lacks a label of the common axis, reindexing it onto the
    common axis is refused, if the length test lets it get that far. *)
Lemma get_indexer_lacking (x : L) (b common : list L) :
  In x common -> ~ In x b ->
  (forall y, In y b -> In y common) ->
  length common <= length b ->
  get_indexer b common = Raise ValueError.
Proof.
intros Hx Hnb Hsub Hlen. unfold get_indexer.
destruct (index_equals b common) eqn:Eq.
{ apply index_equals_eq in Eq. subst common. contradiction. }
destruct (is_unique b) eqn:Eu; [| reflexivity].
apply is_unique_NoDup in Eu.
assert (Hincl : incl (x :: b) common).
{ intros y [<- | Hy]; auto. }
apply NoDup_incl_length in Hincl; [simpl in Hincl; lia |].
constructor; assumption.
Qed.

Lemma dot_common_ok (a b common : list L) :
  dot_common a b = Ok common ->
  common = index_union a b /\
  length common <= length a /\ length common <= length b.
Proof.
unfold dot_common.
destruct (Nat.ltb (length a) (length (index_union a b))) eqn:Ea; [discriminate |].
destruct (Nat.ltb (length b) (length (index_union a b))) eqn:Eb; [discriminate |].
simpl. intros Heq. inversion Heq; subst.
apply Nat.ltb_ge in Ea, Eb. auto.
Qed.

(** [DataFrame.dot] refuses operands one of which has a label that the
    other lacks on the axis they share. *)
Lemma df_dot_misaligned (A B : DataFrame L R) (x : L) :
  (In x (df_columns A) /\ ~ In x (df_index B)) \/
  (In x (df_index B) /\ ~ In x (df_columns A)) ->
  df_dot A B = Raise ValueError.
Proof.
intros Hx. unfold df_dot.
destruct (dot_common (df_columns A) (df_index B)) as [common | e] eqn:Hc.
2:{ apply dot_common_raises in Hc. subst. reflexivity. }
apply dot_common_ok in Hc as (Hcommon & Hla & Hlb). simpl.
assert (Hsub : forall y, In y (df_columns A) \/ In y (df_index B) -> In y common).
{ intros y Hy. subst common. apply In_index_union. exact Hy. }
destruct Hx as [[Hin Hnot] | [Hin Hnot]].
- unfold df_reindex_columns.
  destruct (get_indexer (df_columns A) common) as [ix | e] eqn:Hix.
  2:{ apply get_indexer_raises in Hix. subst. reflexivity. }
  assert (Hrows : df_reindex_rows B common = Raise ValueError).
  { unfold df_reindex_rows.
    rewrite (@get_indexer_lacking x (df_index B) common); auto. }
  simpl. destruct ix; simpl; rewrite Hrows; reflexivity.
- unfold df_reindex_columns.
  rewrite (@get_indexer_lacking x (df_columns A) common); auto.
Qed.

(** Whenever the columns of the view matrix and the index of the market
    covariance do not hold the same labels -- a view on an asset without
    market data, or market data on an asset outside the universe of the
    views -- the solver prints its line and ends in an
    [UnboundLocalError]. *)
Theorem get_weights_label_mismatch self (mw : Series L R)
        (mc P Om : DataFrame L R) (Q : Series L R) (x : L) :
  (In x (df_columns P) /\ ~ In x (df_index mc)) \/
  (In x (df_index mc) /\ ~ In x (df_columns P)) ->
  _get_weights self mw mc P Om Q
  = (["matrix not aligned?"], Raise UnboundLocalError).
Proof.
intros Hx. unfold _get_weights, mat_1_of.
rewrite (@df_dot_misaligned P mc x Hx). reflexivity.
Qed.

End Misaligned.

Lemma get_weights_label_mismatch_witness :
  let P := get_view_data_frame Reference.view_c ["A"; "B"; "C"] in
  @_get_weights _ _ _ _ Reference.reference_Imports Reference.engine_abc
                Reference.market_weights Reference.market_cov P
                (single_cell "v3" 0%float) (single_entry "v3" 0.02%float)
  = (["matrix not aligned?"], Raise UnboundLocalError).
Proof.
intros P.
apply (@get_weights_label_mismatch _ _ _ _ Reference.reference_Imports
         Reference.engine_abc Reference.market_weights Reference.market_cov
         P (single_cell "v3" 0%float) (single_entry "v3" 0.02%float) "C").
left. split.
- simpl. auto.
- simpl. intros [Heq | [Heq | []]]; discriminate.
Defined.

(** ** The labels of the weights *)

Section ResultLabels.
Context {L : Type} `{Label L} {R : Type} `{Num R} `{Imports R}.

Implicit Types (self : @BLEngine L R).

Lemma index_union_equal (a b : list L) :
  index_equals a b = true -> index_union a b = a.
Proof.
intros Heq. unfold index_union. destruct b; [reflexivity |].
rewrite Heq. reflexivity.
Qed.

Lemma take_length {A} (dflt : A) (values : list A) (indexer : list (option nat)) :
  length (take dflt values indexer) = length indexer.
Proof. unfold take. apply length_map. Qed.

Lemma series_reindex_ok (s s' : Series L R) (target : list L) :
  series_wf s = true ->
  series_reindex s target = Ok s' ->
  series_wf s' = true /\ s_index s' = target.
Proof.
intros Hwf. unfold series_reindex, get_indexer.
destruct (index_equals (s_index s) target) eqn:Eq; simpl.
- intros Hok. inversion Hok; subst. apply index_equals_eq in Eq. auto.
- destruct (is_unique (s_index s)); simpl; [| discriminate].
  intros Hok. inversion Hok; subst. unfold series_wf. simpl.
  rewrite take_length, length_map, Nat.eqb_refl. auto.
Qed.

Lemma df_reindex_columns_ok (d d' : DataFrame L R) (target : list L) :
  df_reindex_columns d target = Ok d' ->
  df_index d' = df_index d /\
  length (df_values d') = length (df_values d).
Proof.
unfold df_reindex_columns. intros Hok.
apply bindR_ok_inv in Hok as (ix & _ & Hok).
destruct ix; inversion Hok; subst; simpl; [rewrite length_map |]; auto.
Qed.

Lemma df_dot_ok (a b c : DataFrame L R) :
  df_dot a b = Ok c ->
  df_index c = df_index a /\ length (df_values c) = length (df_values a).
Proof.
unfold df_dot. intros Hok.
apply bindR_ok_inv in Hok as (common & _ & Hok).
apply bindR_ok_inv in Hok as (left & Hleft & Hok).
apply bindR_ok_inv in Hok as (right & _ & Hok).
apply df_reindex_columns_ok in Hleft as [Hi Hl].
inversion Hok; subst; simpl. rewrite mat_mul_length. auto.
Qed.

Lemma df_dot_series_ok (a : DataFrame L R) (s c : Series L R) :
  df_dot_series a s = Ok c ->
  s_index c = df_index a /\ length (s_values c) = length (df_values a).
Proof.
unfold df_dot_series. intros Hok.
apply bindR_ok_inv in Hok as (common & _ & Hok).
apply bindR_ok_inv in Hok as (left & Hleft & Hok).
apply bindR_ok_inv in Hok as (right & _ & Hok).
apply df_reindex_columns_ok in Hleft as [Hi Hl].
inversion Hok; subst; simpl. rewrite mat_vec_length. auto.
Qed.

Lemma series_arith_ok (f : R -> R -> R) (a b c : Series L R) :
  series_wf a = true -> series_wf b = true ->
  series_arith f a b = Ok c ->
  series_wf c = true /\ s_index c = index_union (s_index a) (s_index b).
Proof.
intros Ha Hb. unfold series_arith.
destruct (index_equals (s_index a) (s_index b)) eqn:Eq.
- intros Hok. inversion Hok; subst. rewrite (index_union_equal _ _ Eq).
  split; [| reflexivity]. unfold series_wf in *. simpl.
  apply index_equals_eq in Eq. apply Nat.eqb_eq in Ha, Hb.
  rewrite map2_length, Ha, Hb, Eq, Nat.min_id. apply Nat.eqb_refl.
- intros Hok.
  apply bindR_ok_inv in Hok as (a' & Ha' & Hok).
  apply bindR_ok_inv in Hok as (b' & Hb' & Hok).
  apply series_reindex_ok in Ha' as [Hwa Hia]; [| exact Ha].
  apply series_reindex_ok in Hb' as [Hwb Hib]; [| exact Hb].
  inversion Hok; subst. split; [| reflexivity].
  unfold series_wf in *. simpl. apply Nat.eqb_eq in Hwa, Hwb.
  rewrite map2_length, Hwa, Hwb, Hia, Hib, Nat.min_id. apply Nat.eqb_refl.
Qed.

(** Whatever the other operands, weights that the solver returns form a
    well-formed series (one value per label) over the union of the labels
    of the market weights and of the columns of the view matrix: the
    labels of the market weights themselves when the two agree, their
    sorted union otherwise. *)
Theorem get_weights_labels self (mw : Series L R) (mc P Om : DataFrame L R)
        (Q : Series L R) (out : list string) (bl_weights : Series L R) :
  series_wf mw = true ->
  _get_weights self mw mc P Om Q = (out, Ok bl_weights) ->
  series_wf bl_weights = true /\
  s_index bl_weights = index_union (s_index mw) (df_columns P).
Proof.
intros Hwf Hcall. unfold _get_weights in Hcall.
destruct (mat_1_of self mc P Om) as [mat_1 | e];
  [| destruct e; discriminate].
apply bind_ok_inv in Hcall as (o1 & inverse & o2 & _ & Hcall & _).
apply bind_ok_inv in Hcall as (o3 & mat_1_inv & o4 & _ & Hcall & _).
apply bind_ok_inv in Hcall as (o5 & mat_2 & o6 & _ & Hcall & _).
unfold lift in Hcall. inversion Hcall as [[Hout Hblend]]. clear Hcall.
apply bindR_ok_inv in Hblend as (pm & Hpm & Hblend).
apply bindR_ok_inv in Hblend as (adj & Hadj & Hblend).
apply df_dot_ok in Hpm as [Hpi Hpl].
apply df_dot_series_ok in Hadj as [Hai Hal].
simpl in Hpi, Hpl. rewrite transpose_length in Hpl.
assert (Hadj_wf : series_wf adj = true).
{ unfold series_wf. rewrite Hal, Hpl, Hai, Hpi. apply Nat.eqb_refl. }
unfold series_add in Hblend.
apply series_arith_ok in Hblend as [Hw Hi]; [| exact Hwf | exact Hadj_wf].
rewrite Hai, Hpi in Hi. auto.
Qed.

End ResultLabels.

(** Market weights listed as ("B", "A") against a view matrix over
    ("A", "B"): the weights come back under the sorted labels. *)
Lemma get_weights_labels_witness :
  let blended :=
    {| s_index := ["A"; "B"];
       s_values := [0.71818181818181814; 0.2818181818181818]%float;
       s_name := None |} in
  series_wf blended = true /\ s_index blended = ["A"; "B"].
Proof.
intros blended.
exact (@get_weights_labels _ _ _ _ Reference.reference_Imports
         Reference.engine market_weights_ba Reference.market_cov
         (get_view_data_frame Reference.view_1 Reference.assets)
         (single_cell "v1" 0.0055%float) (single_entry "v1" 0.03%float)
         [] blended eq_refl eq_refl).
Defined.

(** ** Assets that no view mentions *)

Section Untouched.
Context {L : Type} `{Label L} {R : Type} `{Num R} `{Imports R}.

Implicit Types (self : @BLEngine L R).

Lemma nth_map2 {A B C} (f : A -> B -> C) (u : list A) (v : list B) (i : nat)
      (dc : C) (da : A) (db : B) :
  i < length u -> i < length v ->
  nth i (map2 f u v) dc = f (nth i u da) (nth i v db).
Proof.
revert i v. induction u as [| a u IH]; intros i [| b v]; simpl; try lia.
destruct i; [reflexivity |]. intros Hu Hv. apply IH; lia.
Qed.

Lemma nth_map_default {A B} (g : A -> B) (l : list A) (i : nat) (da : A) (db : B) :
  i < length l -> nth i (map g l) db = g (nth i l da).
Proof.
intros Hi. rewrite (nth_indep _ db (g da)) by (rewrite length_map; exact Hi).
apply map_nth.
Qed.

(** A row of zeros has inner product zero with numbers that zero absorbs:
    numbers [x] with 0 + 0 * x = 0 (for floats, the finite ones; the
    product may be a negative zero, the sum is not). *)
Lemma inner_zeros {A} (l : list A) (v : list R) :
  (forall x, In x v -> nadd zero (nmul zero x) = zero) ->
  inner (map (fun _ => zero) l) v = zero.
Proof.
unfold inner. revert v.
induction l as [| a l IH]; intros [| x v] Hv; simpl; try reflexivity.
rewrite (Hv x) by (left; reflexivity).
apply IH. intros y Hy. apply Hv. right. exact Hy.
Qed.

Lemma column_entries (j k : nat) (m : list (list R)) (x : R) :
  has_shape k k m = true -> j < k ->
  In x (column j m) -> In x (concat m).
Proof.
unfold has_shape, column. intros Hshape Hj Hx.
apply andb_true_iff in Hshape as [_ Hrows].
apply in_map_iff in Hx as (row & <- & Hrow).
apply in_concat. exists row. split; [exact Hrow |].
apply nth_In. rewrite forallb_forall in Hrows.
specialize (Hrows row Hrow). apply Nat.eqb_eq in Hrows. lia.
Qed.

(** The closed form at an asset whose column of the view matrix is zero. *)
Lemma posterior_weights_untouched (ra : R) (n k : nat) (w : list R)
      (S P M_inv : list (list R)) (Q : list R) (i : nat) :
  length w = n -> i < n ->
  Forall (fun row => nth i row nan = zero) P ->
  has_shape k k M_inv = true ->
  (forall x, In x (concat M_inv) -> nadd zero (nmul zero x) = zero) ->
  (forall a, In a (adjustment_vector ra n w S P Q) ->
             nadd zero (nmul zero a) = zero) ->
  nadd (nth i w nan) zero = nth i w nan ->
  nth i (posterior_weights ra n k w S P M_inv Q) nan = nth i w nan.
Proof.
intros Hw Hi Hcol Hshape Hinv Hadj Hkeep. unfold posterior_weights.
rewrite (nth_map2 _ _ _ nan nan nan)
  by (rewrite ?mat_vec_length, ?mat_mul_length, ?transpose_length; lia).
unfold mat_vec.
rewrite (nth_map_default _ _ [])
  by (rewrite mat_mul_length, transpose_length; exact Hi).
unfold mat_mul.
rewrite (nth_map_default _ _ []) by (rewrite transpose_length; exact Hi).
unfold transpose.
rewrite (nth_map_default _ _ 0) by (rewrite length_seq; exact Hi).
rewrite seq_nth by exact Hi. simpl.
assert (Hzero : column i P = map (fun _ => zero) P).
{ unfold column. apply map_ext_in. intros row Hrow.
  rewrite Forall_forall in Hcol. apply Hcol. exact Hrow. }
rewrite Hzero.
assert (Hrow : map (fun j => inner (map (fun _ : list R => zero) P) (column j M_inv))
                   (seq 0 k) = map (fun _ => zero) (seq 0 k)).
{ apply map_ext_in. intros j Hj. apply in_seq in Hj.
  apply inner_zeros. intros x Hx. apply Hinv.
  apply (@column_entries j k M_inv x Hshape); [lia | exact Hx]. }
rewrite Hrow, inner_zeros by assumption. exact Hkeep.
Qed.

(** On aligned inputs, an asset in which no view holds a position keeps
    its market weight, to the last bit, provided zero absorbs the entries
    of the inverse and of the adjustment vector (0 + 0 * x = 0: finite
    floats) and adding zero leaves the weight as it is. *)
Theorem unreferenced_asset_keeps_weight self (mw : Series L R)
        (mc P Om : DataFrame L R) (Q : Series L R) (M_inv : list (list R))
        (i : nat) :
  let n := length (s_index mw) in
  let k := length (df_index P) in
  let settings := _calc_settings self in
  series_wf mw = true ->
  df_index mc = s_index mw -> df_columns mc = s_index mw ->
  df_columns P = s_index mw ->
  df_index Om = df_index P -> df_columns Om = df_index P ->
  s_index Q = df_index P ->
  np_linalg_inv (precision_matrix (tau settings) n k
                   (df_values mc) (df_values P) (df_values Om)) = Some M_inv ->
  has_shape k k M_inv = true ->
  i < n ->
  Forall (fun row => nth i row nan = zero) (df_values P) ->
  (forall x, In x (concat M_inv) -> nadd zero (nmul zero x) = zero) ->
  (forall a, In a (adjustment_vector (risk_aversion settings) n (s_values mw)
                     (df_values mc) (df_values P) (s_values Q)) ->
             nadd zero (nmul zero a) = zero) ->
  nadd (nth i (s_values mw) nan) zero = nth i (s_values mw) nan ->
  exists bl_weights,
    _get_weights self mw mc P Om Q = ([], Ok bl_weights) /\
    s_index bl_weights = s_index mw /\
    nth i (s_values bl_weights) nan = nth i (s_values mw) nan.
Proof.
intros n k settings Hwf Hmi Hmc Hpc Hoi Hoc Hqi Hinv Hshape Hi Hcol
       Hzi Hza Hkeep.
eexists. split; [| split].
- apply (@get_weights_aligned _ _ _ _ _ self mw mc P Om Q (s_index mw)
           (df_index P) M_inv); auto.
- reflexivity.
- simpl. apply Nat.eqb_eq in Hwf.
  apply posterior_weights_untouched; auto.
Qed.

End Untouched.

(** The view "B returns 5%" has no position in "A": the weight of "A"
    stays at 0.6. *)
Lemma unreferenced_asset_keeps_weight_witness :
  let P := get_view_data_frame Reference.view_2 Reference.assets in
  exists bl_weights,
    @_get_weights _ _ _ _ Reference.reference_Imports Reference.engine
       Reference.market_weights Reference.market_cov P
       (single_cell "v2" 0.0135%float) (single_entry "v2" 0.05%float)
    = ([], Ok bl_weights) /\
    s_index bl_weights = ["A"; "B"] /\
    nth 0 (s_values bl_weights) nan = 0.6%float.
Proof.
intros P.
apply (@unreferenced_asset_keeps_weight _ _ _ _ Reference.reference_Imports
         Reference.engine Reference.market_weights Reference.market_cov P
         (single_cell "v2" 0.0135%float) (single_entry "v2" 0.05%float)
         [[2.7777777777777777]]%float 0); try reflexivity.
- simpl. lia.
- repeat constructor.
- intros x [<- | []]. reflexivity.
- vm_compute. intros a [<- | []]. reflexivity.
Defined.

(** ** More on the calibration *)

Section CalibrationOutcomes.
Context {L : Type} `{Label L} {R : Type} `{Num R} `{Imports R}.
Context {View ViewCollection : Type} `{Views L R View ViewCollection}.

Implicit Types (self : @BLEngine L R) (view : View).

Lemma squares_of_self (v : list R) :
  Forall (fun x => nadd zero (nsquare (nsub x x)) = zero) v ->
  fold_left nadd (map (fun d => nsquare d) (map2 nsub v v)) zero = zero.
Proof.
induction v as [| x v IH]; intros Hv; [reflexivity |].
inversion Hv as [| ? ? Hx Hrest]; subst. simpl. rewrite Hx. apply IH. exact Hrest.
Qed.

(** At a variance for which the solver returns the target weights, the
    objective of the calibration is zero, for weights [x] with
    0 + (x - x) ** 2 = 0 (finite floats). *)
Theorem objective_zero_at_fit self view (mw : Series L R) (mc P : DataFrame L R)
        (Q target_weights : Series L R) (var : R) (out : list string) :
  _get_weights self mw mc P (single_cell (view_id view) var) Q
    = (out, Ok target_weights) ->
  Forall (fun x => nadd zero (nsquare (nsub x x)) = zero)
         (s_values target_weights) ->
  _error_vs_target_weights self view mw mc P Q target_weights var = (out, Ok zero).
Proof.
intros Hcall Hfinite. unfold _error_vs_target_weights. rewrite Hcall.
unfold bind, lift, _get_sum_squares_error, series_sub.
rewrite series_arith_aligned by reflexivity. simpl.
rewrite squares_of_self by exact Hfinite. rewrite app_nil_r. reflexivity.
Qed.

(** *** A calibration that fails *)

Lemma calibrate_views_first_failure self (mw : Series L R) (mc : DataFrame L R)
      (pre : list View) view (post : list View) (acc : list (L * R))
      (outs out : list string) (variances : list R) (e : exn) :
  mapM (fun v => _confidence_to_variance self v mw mc) pre = (outs, Ok variances) ->
  _confidence_to_variance self view mw mc = (out, Raise e) ->
  calibrate_views self mw mc (pre ++ view :: post) acc = (outs ++ out, Raise e).
Proof.
revert acc outs variances.
induction pre as [| v pre IH]; intros acc outs variances Hpre Hview.
- inversion Hpre; subst. simpl. rewrite Hview. reflexivity.
- simpl in Hpre.
  apply bind_ok_inv in Hpre as (o1 & x & o2 & Hv & Hrest & ->).
  apply bind_ok_inv in Hrest as (o3 & xs & o4 & Hxs & Hret & ->).
  inversion Hret; subst o4. simpl. rewrite Hv. unfold bind at 1.
  rewrite (IH _ _ _ Hxs Hview).
  rewrite app_nil_r, app_assoc. reflexivity.
Qed.

(** The views are calibrated in order, and the first calibration that
    raises ends the whole computation with its error: the views after it
    are not calibrated, no view covariance is built, and the blended
    weights are not computed. *)
Theorem first_failing_calibration self (vc : ViewCollection)
        (start_date end_date : string) (mw : Series L R) (mc : DataFrame L R)
        (pre : list View) view (post : list View)
        (out1 out2 outs out : list string) (variances : list R) (e : exn) :
  get_all_views vc = pre ++ view :: post ->
  mde_get_market_weights (_market_data_engine self) end_date = (out1, Ok mw) ->
  mde_get_annualised_cov_matrix (_market_data_engine self) start_date end_date
    = (out2, Ok mc) ->
  mapM (fun v => _confidence_to_variance self v mw mc) pre = (outs, Ok variances) ->
  _confidence_to_variance self view mw mc = (out, Raise e) ->
  get_view_covariances_from_confidences self mw mc vc = (outs ++ out, Raise e) /\
  get_black_litterman_weights self vc start_date end_date
  = (out1 ++ out2 ++ outs ++ out, Raise e).
Proof.
intros Hviews Hmw Hmc Hpre Hview.
assert (Hcov : get_view_covariances_from_confidences self mw mc vc
               = (outs ++ out, Raise e)).
{ unfold get_view_covariances_from_confidences. rewrite Hviews.
  rewrite (calibrate_views_first_failure self mw mc pre view post [] Hpre Hview).
  reflexivity. }
split; [exact Hcov |].
unfold get_black_litterman_weights. rewrite Hmw. unfold bind at 1.
rewrite Hmc. unfold bind at 1. rewrite Hcov. reflexivity.
Qed.

End CalibrationOutcomes.

Lemma objective_zero_at_fit_witness :
  let P := get_view_data_frame Reference.view_1 Reference.assets in
  let Q := single_entry "v1" 0.03%float in
  let target :=
    {| s_index := ["A"; "B"];
       s_values := [0.71818181818181814; 0.2818181818181818]%float;
       s_name := None |} in
  @_error_vs_target_weights _ _ _ _ Reference.reference_Imports _ _ _
     Reference.engine Reference.view_1 Reference.market_weights
     Reference.market_cov P Q target 0.0055%float = ([], Ok 0%float).
Proof.
intros P Q target.
refine (@objective_zero_at_fit _ _ _ _ Reference.reference_Imports _ _ _
          Reference.engine Reference.view_1 Reference.market_weights
          Reference.market_cov P Q target 0.0055%float [] eq_refl _).
repeat (constructor; [reflexivity |]). constructor.
Defined.

(** The second of three views allocates nothing and cannot be calibrated:
    the blended computation ends in its [LinAlgError]. *)
Lemma first_failing_calibration_witness :
  @get_black_litterman_weights _ _ _ _ Reference.reference_Imports _ _ _
     Reference.engine
     [Reference.view_1; Reference.view_flat; Reference.view_2]
     "2019-01-01" "2019-12-31"
  = ([] ++ [] ++ [] ++ [], Raise LinAlgError).
Proof.
exact (proj2
  (@first_failing_calibration _ _ _ _ Reference.reference_Imports _ _ _
     Reference.engine
     [Reference.view_1; Reference.view_flat; Reference.view_2]
     "2019-01-01" "2019-12-31" Reference.market_weights Reference.market_cov
     [Reference.view_1] Reference.view_flat [Reference.view_2]
     [] [] [] [] [0.0054999999999999971%float] LinAlgError
     eq_refl eq_refl eq_refl eq_refl eq_refl)).
Defined.

(** *** The labels of the view covariance *)

Section CovarianceLabels.
Context {L : Type} `{Label L} {R : Type} `{Num R} `{Imports R}.
Context {View ViewCollection : Type} `{Views L R View ViewCollection}.

Implicit Types (self : @BLEngine L R) (view : View).

Lemma dict_update_keys (d : list (L * R)) (k : L) (v : R) (l : L) :
  In l (map fst (dict_update d k v)) <-> l = k \/ In l (map fst d).
Proof.
induction d as [| [k' v'] d IH]; simpl; [intuition congruence |].
destruct (label_eqb k' k) eqn:Ek; simpl.
- apply label_eqb_eq in Ek. subst k'. intuition congruence.
- rewrite IH. intuition congruence.
Qed.

Lemma dict_update_unique (d : list (L * R)) (k : L) (v : R) :
  is_unique (map fst d) = true ->
  is_unique (map fst (dict_update d k v)) = true.
Proof.
induction d as [| [k' v'] d IH]; simpl; [reflexivity |].
intros Hu. apply andb_true_iff in Hu as [Hk' Hu].
destruct (label_eqb k' k) eqn:Ek; simpl.
- apply label_eqb_eq in Ek. subst k'. rewrite Hk', Hu. reflexivity.
- rewrite (IH Hu), andb_true_r. apply negb_true_iff.
  apply negb_true_iff in Hk'.
  destruct (index_mem k' (map fst (dict_update d k v))) eqn:Em; [| reflexivity].
  apply index_mem_In, dict_update_keys in Em as [-> | Hin].
  + rewrite label_eqb_refl in Ek. discriminate.
  + apply index_mem_In in Hin. congruence.
Qed.

Lemma calibrate_views_keys self (mw : Series L R) (mc : DataFrame L R)
      (views : list View) (acc d : list (L * R)) (out : list string) :
  calibrate_views self mw mc views acc = (out, Ok d) ->
  is_unique (map fst acc) = true ->
  is_unique (map fst d) = true /\
  forall l, In l (map fst d) <->
            In l (map fst acc) \/ In l (map view_id views).
Proof.
revert acc out. induction views as [| view rest IH]; intros acc out Hrun Hu.
- inversion Hrun; subst. split; [exact Hu |]. simpl. tauto.
- simpl in Hrun.
  apply bind_ok_inv in Hrun as (o1 & var & o2 & _ & Hrest & _).
  apply IH in Hrest as [Hunique Hkeys]; [| apply dict_update_unique; exact Hu].
  split; [exact Hunique |]. intros l. rewrite Hkeys, dict_update_keys. simpl.
  intuition congruence.
Qed.

(** Whatever the ids of the views, a view covariance that is returned is
    a well-formed square frame with the same labels on both axes; the
    labels are pairwise different, and they are exactly the ids that
    occur among the views (views that share an id share one entry). *)
Theorem view_covariance_labels self (mw : Series L R) (mc : DataFrame L R)
        (vc : ViewCollection) (out : list string) (view_cov : DataFrame L R) :
  get_view_covariances_from_confidences self mw mc vc = (out, Ok view_cov) ->
  df_wf view_cov = true /\
  df_columns view_cov = df_index view_cov /\
  is_unique (df_index view_cov) = true /\
  forall l, In l (df_index view_cov) <->
            exists view, In view (get_all_views vc) /\ view_id view = l.
Proof.
unfold get_view_covariances_from_confidences. intros Hrun.
apply bind_ok_inv in Hrun as (o1 & d & o2 & Hloop & Hframe & _).
apply calibrate_views_keys in Hloop as [Hunique Hkeys]; [| reflexivity].
unfold lift, pd_DataFrame, series_of_dict in Hframe. simpl in Hframe.
destruct (has_shape _ _ _) eqn:Hshape; [| discriminate].
inversion Hframe; subst. unfold df_wf. simpl.
split; [exact Hshape |]. split; [reflexivity |]. split; [exact Hunique |].
intros l. rewrite Hkeys. simpl. rewrite in_map_iff.
split.
- intros [[] | (view & Hid & Hin)]. eauto.
- intros (view & Hin & Hid). right. eauto.
Qed.

End CovarianceLabels.

Lemma view_covariance_labels_witness :
  let view_cov :=
    {| df_index := ["v1"]; df_columns := ["v1"];
       df_values := [[0.013500000000000003]]%float |} in
  df_wf view_cov = true /\ is_unique (df_index view_cov) = true.
Proof.
intros view_cov.
assert (Hrun : @get_view_covariances_from_confidences _ _ _ _
                 Reference.reference_Imports _ _ _
                 Reference.engine Reference.market_weights Reference.market_cov
                 [Reference.view_1; Reference.view_1_again]
               = ([], Ok view_cov)) by reflexivity.
destruct (view_covariance_labels _ _ _ _ Hrun) as (Hwf & _ & Hunique & _).
split; assumption.
Defined.

(** ** More on the blended weights *)

Section BlendOutcomes.
Context {L : Type} `{Label L} {R : Type} `{Num R} `{Imports R}.
Context {View ViewCollection : Type} `{Views L R View ViewCollection}.

Implicit Types (self : @BLEngine L R) (view : View).

Lemma confidence_to_variance_misaligned self view (mw : Series L R)
      (mc : DataFrame L R) (x : L) :
  (In x (df_columns (get_view_data_frame view (universe self))) /\
   ~ In x (df_index mc)) \/
  (In x (df_index mc) /\
   ~ In x (df_columns (get_view_data_frame view (universe self)))) ->
  _confidence_to_variance self view mw mc
  = (["matrix not aligned?"], Raise UnboundLocalError).
Proof.
intros Hx.
unfold _confidence_to_variance, _get_view_target_weights, _get_weights, mat_1_of.
rewrite (@df_dot_misaligned _ _ _ _ _ mc x Hx). reflexivity.
Qed.

(** A universe that does not match the market data stops the blend at
    the first view: when the frame of that view over the configured
    assets and the market covariance do not hold the same labels, the
    line of the solver is printed once, after whatever the market data
    printed, and the computation ends in [UnboundLocalError]; the
    minimiser is not called and the other views are not looked at. *)
Theorem blend_universe_mismatch self (vc : ViewCollection)
        (start_date end_date : string) (mw : Series L R) (mc : DataFrame L R)
        view (rest : list View) (out1 out2 : list string) (x : L) :
  get_all_views vc = view :: rest ->
  mde_get_market_weights (_market_data_engine self) end_date = (out1, Ok mw) ->
  mde_get_annualised_cov_matrix (_market_data_engine self) start_date end_date
    = (out2, Ok mc) ->
  (In x (df_columns (get_view_data_frame view (universe self))) /\
   ~ In x (df_index mc)) \/
  (In x (df_index mc) /\
   ~ In x (df_columns (get_view_data_frame view (universe self)))) ->
  get_black_litterman_weights self vc start_date end_date
  = (out1 ++ out2 ++ ["matrix not aligned?"], Raise UnboundLocalError).
Proof.
intros Hviews Hmw Hmc Hx.
unfold get_black_litterman_weights. rewrite Hmw. unfold bind at 1.
rewrite Hmc. unfold bind at 1.
unfold get_view_covariances_from_confidences. rewrite Hviews. simpl.
rewrite (@confidence_to_variance_misaligned self view mw mc x Hx). reflexivity.
Qed.

(** *** What the blend reads of the settings *)

Lemma get_weights_reads self1 self2 :
  tau (_calc_settings self1) = tau (_calc_settings self2) ->
  risk_aversion (_calc_settings self1) = risk_aversion (_calc_settings self2) ->
  _get_weights self1 = _get_weights self2.
Proof.
destruct self1 as [m1 [t1 r1 s1 c1 a1]], self2 as [m2 [t2 r2 s2 c2 a2]]. simpl.
intros -> ->. reflexivity.
Qed.

Lemma confidence_to_variance_reads self1 self2 view
      (mw : Series L R) (mc : DataFrame L R) :
  tau (_calc_settings self1) = tau (_calc_settings self2) ->
  risk_aversion (_calc_settings self1) = risk_aversion (_calc_settings self2) ->
  universe self1 = universe self2 ->
  _confidence_to_variance self1 view mw mc = _confidence_to_variance self2 view mw mc.
Proof.
intros Ht Hr Hu.
unfold _confidence_to_variance, _get_view_target_weights, _error_vs_target_weights.
rewrite (get_weights_reads self1 self2 Ht Hr), Hu. reflexivity.
Qed.

Lemma calibrate_views_reads self1 self2 (mw : Series L R) (mc : DataFrame L R)
      (views : list View) (acc : list (L * R)) :
  tau (_calc_settings self1) = tau (_calc_settings self2) ->
  risk_aversion (_calc_settings self1) = risk_aversion (_calc_settings self2) ->
  universe self1 = universe self2 ->
  calibrate_views self1 mw mc views acc = calibrate_views self2 mw mc views acc.
Proof.
intros Ht Hr Hu. revert acc.
induction views as [| view rest IH]; intros acc; [reflexivity |]. simpl.
rewrite (confidence_to_variance_reads self1 self2 view mw mc Ht Hr Hu).
apply bind_ext_on. intros _ var _. apply IH.
Qed.

(** The blended weights depend on the engine through its market data
    and three things of its settings: tau, the risk aversion and the
    names of the assets.  The two dates of the settings and the values
    of the asset universe are not read; the window is the one passed
    in. *)
Theorem blend_reads_three_settings self1 self2 (vc : ViewCollection)
        (start_date end_date : string) :
  _market_data_engine self1 = _market_data_engine self2 ->
  tau (_calc_settings self1) = tau (_calc_settings self2) ->
  risk_aversion (_calc_settings self1) = risk_aversion (_calc_settings self2) ->
  universe self1 = universe self2 ->
  get_black_litterman_weights self1 vc start_date end_date
  = get_black_litterman_weights self2 vc start_date end_date.
Proof.
intros Hm Ht Hr Hu.
unfold get_black_litterman_weights, get_view_covariances_from_confidences.
rewrite Hm, Hu, (get_weights_reads self1 self2 Ht Hr).
apply bind_ext_on. intros _ mw _. apply bind_ext_on. intros _ mc _.
rewrite (calibrate_views_reads self1 self2 mw mc (get_all_views vc) [] Ht Hr Hu).
reflexivity.
Qed.

End BlendOutcomes.

(** The universe of [engine_abc] names an asset "C" without market data:
    two views on "A" and "B" alone cannot be blended. *)
Lemma blend_universe_mismatch_witness :
  @get_black_litterman_weights _ _ _ _ Reference.reference_Imports _ _ _
     Reference.engine_abc [Reference.view_1; Reference.view_2]
     "2019-01-01" "2019-12-31"
  = ([] ++ [] ++ ["matrix not aligned?"], Raise UnboundLocalError).
Proof.
refine (@blend_universe_mismatch _ _ _ _ Reference.reference_Imports _ _ _
          Reference.engine_abc [Reference.view_1; Reference.view_2]
          "2019-01-01" "2019-12-31" Reference.market_weights
          Reference.market_cov Reference.view_1 [Reference.view_2] [] [] "C"
          eq_refl eq_refl eq_refl _).
left. split.
- simpl. auto.
- simpl. intros [Heq | [Heq | []]]; discriminate.
Defined.

(** Other dates and other tickers in the settings, the same weights. *)
Lemma blend_reads_three_settings_witness :
  let other :=
    {| _market_data_engine := Reference.market_data;
       _calc_settings :=
         {| tau := 0.05%float; risk_aversion := 2.5%float;
            start_date := "2001-01-01"; calculation_date := "2001-12-31";
            asset_universe := [("A", "AAA"); ("B", "BBB")] |} |} in
  @get_black_litterman_weights _ _ _ _ Reference.reference_Imports _ _ _
     Reference.engine [Reference.view_1; Reference.view_2]
     "2019-01-01" "2019-12-31"
  = @get_black_litterman_weights _ _ _ _ Reference.reference_Imports _ _ _
     other [Reference.view_1; Reference.view_2] "2019-01-01" "2019-12-31".
Proof.
intros other.
exact (@blend_reads_three_settings _ _ _ _ Reference.reference_Imports _ _ _
         Reference.engine other [Reference.view_1; Reference.view_2]
         "2019-01-01" "2019-12-31" eq_refl eq_refl eq_refl eq_refl).
Defined.
